(** * The product lakehouse pipeline of [scripts/ingestion.py]

    A shallow embedding of the three-layer ELT script (bronze, silver, gold)
    and the properties its specification states about it.

    The script is a straight-line program over one DuckDB connection.  The
    embedding keeps its shape:
    - the database is a record of four optional tables (a table that does
      not exist is [None]);
    - what the script reads from outside (the landing directory, the result
      of [pd.read_csv] on each file, the wall clock) is an explicit
      environment;
    - what the SQL engine leaves open (the order in which a table is
      scanned, hence which of several equally recent rows gets
      [ROW_NUMBER() = 1], and the order of a result set) is an explicit
      [engine] record of scan orders;
    - an exception is an explicit failure: a per-file [try/except] that only
      logs becomes a skip, a [raise] becomes an aborted run. *)

From Stdlib Require Import List ZArith Bool Ascii String Lia Permutation.
From Stdlib Require Import Floats.SpecFloat.
Import ListNotations.

Local Open Scope Z_scope.

(** ** Text and cells *)

(** A cell of a VARCHAR column or of a data frame read from CSV: a text, or
    NULL ([None]). *)
Definition cell := option string.

Definition cell_eqb (a b : cell) : bool :=
  match a, b with
  | None, None => true
  | Some x, Some y => String.eqb x y
  | _, _ => false
  end.

Definition chars (s : string) : list ascii := list_ascii_of_string s.

(** [str.endswith]: the suffix, read backwards, starts the text read
    backwards. *)
Fixpoint starts_with (p s : list ascii) : bool :=
  match p, s with
  | [], _ => true
  | a :: p', b :: s' => Ascii.eqb a b && starts_with p' s'
  | _ :: _, [] => false
  end.

Definition endswith (s suffix : string) : bool :=
  starts_with (rev (chars suffix)) (rev (chars s)).

(** ** Python's [int()] and [float()] on text, as [astype] applies them

    [DataFrame.astype] on an object column of Python strings converts each
    element with [int()] (for ['int64']) or [float()] (for ['float32']).
    Both strip surrounding white space, take an optional sign, and let
    single underscores separate digits. *)

Definition is_space (c : ascii) : bool :=
  let n := Z.of_nat (nat_of_ascii c) in
  ((9 <=? n) && (n <=? 13)) || ((28 <=? n) && (n <=? 32)).

Fixpoint lstrip (s : list ascii) : list ascii :=
  match s with
  | c :: tl => if is_space c then lstrip tl else s
  | [] => []
  end.

Definition strip (s : list ascii) : list ascii :=
  rev (lstrip (rev (lstrip s))).

Definition digit_val (c : ascii) : option Z :=
  let n := Z.of_nat (nat_of_ascii c) in
  if (48 <=? n) && (n <=? 57) then Some (n - 48) else None.

Definition is_underscore (c : ascii) : bool :=
  (nat_of_ascii c =? 95)%nat.

(** A digit part [digit (["_"] digit)*] at the head of [s], continuing an
    accumulated value [acc] over [n] digits read so far: the value, the
    number of digits, and the rest of the text.  An underscore is consumed
    only when a digit follows it. *)
Fixpoint more_digits (s : list ascii) (acc : Z) (n : Z)
  : Z * Z * list ascii :=
  match s with
  | c :: tl =>
      match digit_val c with
      | Some d => more_digits tl (10 * acc + d) (n + 1)
      | None =>
          if is_underscore c then
            match tl with
            | c' :: tl' =>
                match digit_val c' with
                | Some d => more_digits tl' (10 * acc + d) (n + 1)
                | None => (acc, n, s)
                end
            | [] => (acc, n, s)
            end
          else (acc, n, s)
      end
  | [] => (acc, n, s)
  end.

(** A digit part must start with a digit. *)
Definition digit_part (s : list ascii) (acc : Z) (n : Z)
  : option (Z * Z * list ascii) :=
  match s with
  | c :: tl =>
      match digit_val c with
      | Some d => Some (more_digits tl (10 * acc + d) (n + 1))
      | None => None
      end
  | [] => None
  end.

(** An optional sign: [true] for a minus. *)
Definition sign_part (s : list ascii) : bool * list ascii :=
  match s with
  | "-"%char :: tl => (true, tl)
  | "+"%char :: tl => (false, tl)
  | _ => (false, s)
  end.

(** [int(text)] in base 10. *)
Definition python_int (text : string) : option Z :=
  let '(neg, s) := sign_part (strip (chars text)) in
  match digit_part s 0 0 with
  | Some (v, _, []) => Some (if neg then - v else v)
  | _ => None
  end.

Definition int64_min : Z := - 2 ^ 63.
Definition int64_max : Z := 2 ^ 63 - 1.

(** [astype('int64')] on one element: NULL is a [TypeError], text that is
    not an integer a [ValueError], an integer outside 64 bits an
    [OverflowError]; all three are [None]. *)
Definition astype_int64 (c : cell) : option Z :=
  match c with
  | None => None
  | Some text =>
      match python_int text with
      | Some v => if (int64_min <=? v) && (v <=? int64_max) then Some v else None
      | None => None
      end
  end.

(** A binary32 value of a FLOAT column, NULL being [None]. *)
Definition float32 := spec_float.

Definition lower (c : ascii) : ascii :=
  let n := nat_of_ascii c in
  if ((65 <=? n) && (n <=? 90))%nat then ascii_of_nat (n + 32) else c.

Definition is_word (w : string) (s : list ascii) : bool :=
  if list_eq_dec ascii_dec (map lower s) (chars w) then true else false.

(** The decimal [m * 10 ^ e] rounded to nearest-even in the binary format
    of precision [prec] and maximal exponent [emax]. *)
Definition round_decimal (prec emax : Z) (neg : bool) (m e : Z) : spec_float :=
  match m with
  | Zpos p =>
      if 0 <=? e
      then binary_normalize prec emax (if neg then - (m * 10 ^ e) else m * 10 ^ e) 0 neg
      else SFdiv prec emax (S754_finite neg p 0)
                 (S754_finite false (Z.to_pos (10 ^ (- e))) 0)
  | _ => S754_zero neg
  end.

(** The mantissa digits [digits [. digits]] or [. digits] of a float
    literal: the digits as one integer and the number of them after the
    point. *)
Definition mantissa_part (s : list ascii) : option (Z * Z * list ascii) :=
  match digit_part s 0 0 with
  | Some (v, _, "."%char :: tl) =>
      match digit_part tl v 0 with
      | Some (v', n, rest) => Some (v', n, rest)
      | None => Some (v, 0, tl)
      end
  | Some (v, _, rest) => Some (v, 0, rest)
  | None =>
      match s with
      | "."%char :: tl => digit_part tl 0 0
      | _ => None
      end
  end.

Definition is_exp_mark (c : ascii) : bool :=
  match c with
  | "e"%char | "E"%char => true
  | _ => false
  end.

Definition exponent_part (s : list ascii) : option Z :=
  match s with
  | [] => Some 0
  | c :: tl =>
      if is_exp_mark c then
        let '(neg, ds) := sign_part tl in
        match digit_part ds 0 0 with
        | Some (v, _, []) => Some (if neg then - v else v)
        | _ => None
        end
      else None
  end.

(** [float(text)]: a binary64 value. *)
Definition python_float (text : string) : option spec_float :=
  let '(neg, s) := sign_part (strip (chars text)) in
  if is_word "inf" s || is_word "infinity" s then Some (S754_infinity neg)
  else if is_word "nan" s then Some S754_nan
  else
    match mantissa_part s with
    | Some (m, frac, rest) =>
        match exponent_part rest with
        | Some e => Some (round_decimal 53 1024 neg m (e - frac))
        | None => None
        end
    | None => None
    end.

(** The C conversion of a double to a float, round to nearest-even. *)
Definition double_to_single (x : spec_float) : spec_float :=
  match x with
  | S754_finite s m e => binary_round 24 128 s m e
  | _ => x
  end.

(** [astype('float32')] on one element, as the FLOAT column then stores it:
    NULL becomes NaN in the frame, and the engine reads a NaN of a pandas
    float column as NULL; text that is not a number is a [ValueError]
    (the outer [None]). *)
Definition astype_float32 (c : cell) : option (option float32) :=
  match c with
  | None => Some None
  | Some text =>
      match python_float text with
      | Some x =>
          match double_to_single x with
          | S754_nan => Some None
          | y => Some (Some y)
          end
      | None => None
      end
  end.

(** ** Wall clock and TIMESTAMP values *)

(** What [datetime.now()] returns. *)
Record datetime := {
  year : Z; month : Z; day : Z;
  hour : Z; minute : Z; second : Z; microsecond : Z
}.

(** A TIMESTAMP value as the engine stores it: microseconds since
    1970-01-01 00:00:00. *)
Definition timestamp := Z.

Definition is_leap (y : Z) : bool :=
  ((y mod 4 =? 0) && negb (y mod 100 =? 0)) || (y mod 400 =? 0).

Definition days_in_month (y m : Z) : Z :=
  if m =? 2 then (if is_leap y then 29 else 28)
  else if (m =? 4) || (m =? 6) || (m =? 9) || (m =? 11) then 30
  else 31.

(** Days from 1970-01-01 to a date of the proleptic Gregorian calendar. *)
Definition days_from_civil (y m d : Z) : Z :=
  let y' := if m <=? 2 then y - 1 else y in
  let era := y' / 400 in
  let yoe := y' - era * 400 in
  let doy := (153 * ((m + 9) mod 12) + 2) / 5 + d - 1 in
  let doe := yoe * 365 + yoe / 4 - yoe / 100 + doy in
  era * 146097 + doe - 719468.

Definition valid_fields (y m d h mi s : Z) : bool :=
  (1 <=? y) && (y <=? 9999) && (1 <=? m) && (m <=? 12) &&
  (1 <=? d) && (d <=? days_in_month y m) &&
  (0 <=? h) && (h <? 24) && (0 <=? mi) && (mi <? 60) &&
  (0 <=? s) && (s <? 60).

(** The readings the clock can give. *)
Definition valid_datetime (t : datetime) : bool :=
  valid_fields (year t) (month t) (day t) (hour t) (minute t) (second t) &&
  (0 <=? microsecond t) && (microsecond t <? 1000000).

Definition timestamp_of_fields (y m d h mi s : Z) : timestamp :=
  (((days_from_civil y m d * 24 + h) * 60 + mi) * 60 + s) * 1000000.

Definition digit_char (k : Z) : ascii := ascii_of_nat (48 + Z.to_nat k).

Definition two_digits (n : Z) : list ascii :=
  [digit_char (n / 10); digit_char (n mod 10)].

Definition four_digits (n : Z) : list ascii :=
  [digit_char (n / 1000); digit_char (n / 100 mod 10);
   digit_char (n / 10 mod 10); digit_char (n mod 10)].

(** [t.strftime('%Y-%m-%d %H:%M:%S')]: the microseconds are not printed. *)
Definition strftime (t : datetime) : string :=
  string_of_list_ascii
    (four_digits (year t) ++ "-"%char :: two_digits (month t) ++
     "-"%char :: two_digits (day t) ++ " "%char :: two_digits (hour t) ++
     ":"%char :: two_digits (minute t) ++ ":"%char :: two_digits (second t)).

Definition number2 (a b : ascii) : option Z :=
  match digit_val a, digit_val b with
  | Some x, Some y => Some (10 * x + y)
  | _, _ => None
  end.

Definition number4 (a b c d : ascii) : option Z :=
  match number2 a b, number2 c d with
  | Some x, Some y => Some (100 * x + y)
  | _, _ => None
  end.

(** The engine's cast of a text to TIMESTAMP, for the spelling
    [YYYY-MM-DD HH:MM:SS] that [strftime] above writes and the cutoff
    literal has; a text in another spelling counts as not castable. *)
Definition cast_timestamp (text : string) : option timestamp :=
  match chars text with
  | [y1; y2; y3; y4; p1; m1; m2; p2; d1; d2; p3; h1; h2; p4; i1; i2; p5; s1; s2] =>
      if Ascii.eqb p1 "-" && Ascii.eqb p2 "-" && Ascii.eqb p3 " "
         && Ascii.eqb p4 ":" && Ascii.eqb p5 ":"
      then
        match number4 y1 y2 y3 y4, number2 m1 m2, number2 d1 d2,
              number2 h1 h2, number2 i1 i2, number2 s1 s2 with
        | Some y, Some m, Some d, Some h, Some mi, Some s =>
            if valid_fields y m d h mi s
            then Some (timestamp_of_fields y m d h mi s)
            else None
        | _, _, _, _, _, _ => None
        end
      else None
  | _ => None
  end.

(** The cast of a cell: NULL stays NULL. *)
Definition cast_timestamp_cell (c : cell) : option (option timestamp) :=
  match c with
  | None => Some None
  | Some text =>
      match cast_timestamp text with
      | Some t => Some (Some t)
      | None => None
      end
  end.

(** The TIMESTAMP a clock reading becomes once printed and cast. *)
Definition timestamp_of_datetime (t : datetime) : timestamp :=
  timestamp_of_fields (year t) (month t) (day t) (hour t) (minute t) (second t).

(** The filter literal ['2025-01-01 00:00:00'] of the silver query. *)
Definition CUTOFF : string := "2025-01-01 00:00:00".

Definition cutoff : timestamp := 1735689600000000.

(** ** Tables *)

(** A row of [bronze_produtos]: five VARCHAR columns, the ingestion
    TIMESTAMP and the source file. *)
Record raw_row := {
  NATBR : cell;
  MAKTX : cell;
  WERKS : cell;
  MAINS : cell;
  LABST : cell;
  ingest_time : option timestamp;
  file_name : cell
}.

(** A row of [silver_df] once the bookkeeping columns are dropped and the
    others renamed, before the cast. *)
Record renamed_row := {
  id_text : cell;
  prod_name_text : cell;
  id_category_text : cell;
  supplier_text : cell;
  price_text : cell
}.

(** A row of [silver_df] after [astype]. *)
Record typed_row := {
  typed_id : Z;
  typed_prod_name : cell;
  typed_id_category : cell;
  typed_supplier : Z;
  typed_price : option float32
}.

(** A row of [silver_produtos]. *)
Record silver_row := {
  id : Z;
  prod_name : cell;
  id_category : cell;
  supplier : Z;
  price : option float32;
  silver_ingest_time : option timestamp
}.

(** Rows of [gold_produtos_fat] and [gold_produtos_dim]. *)
Record fat_row := { fat_id : Z; fat_prod_name : cell; fat_price : option float32 }.
Record dim_row := { dim_id : Z; dim_id_category : cell; dim_supplier : Z }.

(** The database file: a table is absent ([None]) or holds its rows in
    insertion order. *)
Record database := {
  bronze_produtos : option (list raw_row);
  silver_produtos : option (list silver_row);
  gold_produtos_fat : option (list fat_row);
  gold_produtos_dim : option (list dim_row)
}.

(** ** The environment of a run *)

(** A data frame: its column labels and its rows, one cell per column. *)
Record dataframe := {
  columns : list string;
  rows : list (list cell)
}.

(** An entry of the landing directory: its name, what [datetime.now()]
    reads when the loop reaches it, and what [pd.read_csv] makes of it
    ([None] when it raises). *)
Record landing_file := {
  file : string;
  now : datetime;
  read_csv : option dataframe
}.

(** [listdir] is [None] when [os.listdir] raises; [silver_now] is the clock
    reading of the silver stage. *)
Record environment := {
  listdir : option (list landing_file);
  silver_now : datetime
}.

(** The orders in which the engine scans a table for a query.  The SQL of
    the script fixes none of them. *)
Record engine := {
  scan_bronze : list raw_row -> list raw_row;
  scan_bronze_perm : forall t, Permutation (scan_bronze t) t;
  scan_silver_fat : list silver_row -> list silver_row;
  scan_silver_fat_perm : forall t, Permutation (scan_silver_fat t) t;
  scan_silver_dim : list silver_row -> list silver_row;
  scan_silver_dim_perm : forall t, Permutation (scan_silver_dim t) t
}.

(** ** A small error monad for statements that can raise *)

Definition bind {A B} (x : option A) (f : A -> option B) : option B :=
  match x with
  | Some a => f a
  | None => None
  end.

Notation "x <- e ;; k" := (bind e (fun x => k))
  (at level 61, e at next level, right associativity).

(** All-or-nothing conversion of a column or of the rows of a statement. *)
Fixpoint traverse {A B} (f : A -> option B) (l : list A) : option (list B) :=
  match l with
  | [] => Some []
  | a :: tl => b <- f a ;; bs <- traverse f tl ;; Some (b :: bs)
  end.

(** ** Bronze: the raw layer loader *)

Definition EXT : string := ".csv".

Fixpoint index_of (name : string) (l : list string) : option nat :=
  match l with
  | [] => None
  | x :: tl => if String.eqb x name then Some O
               else option_map S (index_of name tl)
  end.

Fixpoint replace_nth {A} (n : nat) (v : A) (l : list A) : list A :=
  match l, n with
  | [], _ => []
  | _ :: tl, O => v :: tl
  | x :: tl, S n' => x :: replace_nth n' v tl
  end.

(** [df[name] = v] with a scalar [v]: an existing column is overwritten in
    place, a new one is added last. *)
Definition set_column (df : dataframe) (name : string) (v : cell) : dataframe :=
  match index_of name (columns df) with
  | Some i => {| columns := columns df;
                 rows := map (replace_nth i v) (rows df) |}
  | None => {| columns := columns df ++ [name];
               rows := map (fun r => r ++ [v]) (rows df) |}
  end.

(** One row of [SELECT * FROM df] as a row of the seven-column table:
    values go by position, the sixth is cast to TIMESTAMP. *)
Definition insert_row (r : list cell) : option raw_row :=
  match r with
  | [c0; c1; c2; c3; c4; c5; c6] =>
      t <- cast_timestamp_cell c5 ;;
      Some {| NATBR := c0; MAKTX := c1; WERKS := c2; MAINS := c3; LABST := c4;
              ingest_time := t; file_name := c6 |}
  | _ => None
  end.

(** [INSERT INTO bronze_produtos SELECT * FROM df]: the statement is
    refused unless the frame has the table's seven columns, and inserts
    all rows or none. *)
Definition insert_bronze (df : dataframe) : option (list raw_row) :=
  if (List.length (columns df) =? 7)%nat then traverse insert_row (rows df)
  else None.

(** [df['ingest_time'] = ingest_time] then [df['file_name'] = file]. *)
Definition add_metadata (f_name : string) (ingest_time : string) (df : dataframe)
  : dataframe :=
  set_column (set_column df "ingest_time" (Some ingest_time))
             "file_name" (Some f_name).

(** The body of the [try] for one file: the rows it appends, or [None]
    when it raises. *)
Definition load_file (f : landing_file) : option (list raw_row) :=
  let ingest_time := strftime (now f) in
  df <- read_csv f ;;
  insert_bronze (add_metadata (file f) ingest_time df).

(** [csv_files]. *)
Definition csv_files (entries : list landing_file) : list landing_file :=
  filter (fun f => endswith (file f) EXT) entries.

(** The [for] loop: a file that raises is logged and the loop goes on. *)
Fixpoint ingest (files : list landing_file) (bronze : list raw_row) : list raw_row :=
  match files with
  | [] => bronze
  | f :: tl =>
      match load_file f with
      | Some new_rows => ingest tl (bronze ++ new_rows)
      | None => ingest tl bronze
      end
  end.

(** ** Silver: the deduplicating transformer *)

(** The order of [ingest_time] values; under [ORDER BY ... DESC] the engine
    puts NULL last, so NULL is the smallest. *)
Definition ts_lt (a b : option timestamp) : bool :=
  match a, b with
  | Some x, Some y => x <? y
  | None, Some _ => true
  | _, None => false
  end.

Definition ts_le (a b : option timestamp) : bool := negb (ts_lt b a).

(** [WHERE ingest_time >= '2025-01-01 00:00:00']: a NULL does not pass. *)
Definition recent (r : raw_row) : bool :=
  match ingest_time r with
  | Some t => cutoff <=? t
  | None => false
  end.

(** [PARTITION BY NATBR]: NULL keys form one partition. *)
Definition same_key (r r' : raw_row) : bool := cell_eqb (NATBR r') (NATBR r).

(** [ROW_NUMBER() OVER (PARTITION BY NATBR ORDER BY ingest_time DESC)] of
    the row [r] met after the rows [before] and ahead of the rows [after]
    in the scan: one more than the number of rows of its partition ordered
    ahead of it.  A row scanned earlier is ahead when it is at least as
    recent, a row scanned later only when it is strictly more recent: the
    query gives no order among equally recent rows, so the scan decides. *)
Definition row_number (before : list raw_row) (r : raw_row) (after : list raw_row) : nat :=
  S (List.length (filter (fun r' => same_key r r' && ts_le (ingest_time r) (ingest_time r')) before)
     + List.length (filter (fun r' => same_key r r' && ts_lt (ingest_time r) (ingest_time r')) after)).

Fixpoint rank (before rest : list raw_row) : list (raw_row * nat) :=
  match rest with
  | [] => []
  | r :: tl => (r, row_number before r tl) :: rank (before ++ [r]) tl
  end.

(** The CTE [ranked] over a scan of the bronze table. *)
Definition ranked (scan : list raw_row) : list (raw_row * nat) :=
  rank [] (filter recent scan).

(** [SELECT * FROM ranked WHERE rn = 1]. *)
Definition silver_query (scan : list raw_row) : list (raw_row * nat) :=
  filter (fun p => (snd p =? 1)%nat) (ranked scan).

(** [drop(columns=['ingest_time', 'file_name', 'rn'])] then [rename]. *)
Definition drop_rename (p : raw_row * nat) : renamed_row :=
  let r := fst p in
  {| id_text := NATBR r;
     prod_name_text := MAKTX r;
     id_category_text := WERKS r;
     supplier_text := MAINS r;
     price_text := LABST r |}.

Definition astype_row (r : renamed_row) : option typed_row :=
  i <- astype_int64 (id_text r) ;;
  s <- astype_int64 (supplier_text r) ;;
  p <- astype_float32 (price_text r) ;;
  Some {| typed_id := i;
          typed_prod_name := prod_name_text r;
          typed_id_category := id_category_text r;
          typed_supplier := s;
          typed_price := p |}.

(** [silver_df.astype({...})]: raises when any element fails. *)
Definition astype (df : list renamed_row) : option (list typed_row) :=
  traverse astype_row df.

(** A typed row with its [ingest_time] column. *)
Definition stamp_row (t : option timestamp) (r : typed_row) : silver_row :=
  {| id := typed_id r;
     prod_name := typed_prod_name r;
     id_category := typed_id_category r;
     supplier := typed_supplier r;
     price := typed_price r;
     silver_ingest_time := t |}.

(** One row of [INSERT INTO silver_produtos SELECT * FROM silver_df], the
    frame carrying the text [stamp] in its new [ingest_time] column. *)
Definition insert_silver_row (stamp : string) (r : typed_row) : option silver_row :=
  t <- cast_timestamp_cell (Some stamp) ;;
  Some (stamp_row t r).

Definition insert_silver (stamp : string) (df : list typed_row) : option (list silver_row) :=
  traverse (insert_silver_row stamp) df.

(** ** Gold: the dimensional splitter *)

(** Equality of FLOAT values under [DISTINCT]: the two zeros are one
    value, a NaN equals a NaN, NULL equals NULL. *)
Definition float_eqb (x y : float32) : bool :=
  match x, y with
  | S754_nan, S754_nan => true
  | _, _ => SFeqb x y
  end.

Definition price_eqb (a b : option float32) : bool :=
  match a, b with
  | None, None => true
  | Some x, Some y => float_eqb x y
  | _, _ => false
  end.

Definition fat_eqb (a b : fat_row) : bool :=
  (fat_id a =? fat_id b) && cell_eqb (fat_prod_name a) (fat_prod_name b)
  && price_eqb (fat_price a) (fat_price b).

Definition dim_eqb (a b : dim_row) : bool :=
  (dim_id a =? dim_id b) && cell_eqb (dim_id_category a) (dim_id_category b)
  && (dim_supplier a =? dim_supplier b).

(** [SELECT DISTINCT]: of rows that are equal, the first one scanned is
    kept. *)
Fixpoint distinct {A} (eqb : A -> A -> bool) (l : list A) : list A :=
  match l with
  | [] => []
  | x :: tl => x :: filter (fun y => negb (eqb x y)) (distinct eqb tl)
  end.

Definition select_fat (r : silver_row) : fat_row :=
  {| fat_id := id r; fat_prod_name := prod_name r; fat_price := price r |}.

Definition select_dim (r : silver_row) : dim_row :=
  {| dim_id := id r; dim_id_category := id_category r; dim_supplier := supplier r |}.

(** [SELECT DISTINCT id, prod_name, price FROM silver_produtos]. *)
Definition df_fato (scan : list silver_row) : list fat_row :=
  distinct fat_eqb (map select_fat scan).

(** [SELECT DISTINCT id, id_category, supplier FROM silver_produtos]. *)
Definition df_dim (scan : list silver_row) : list dim_row :=
  distinct dim_eqb (map select_dim scan).

(** ** The stages and the run *)

Inductive outcome := Success | Aborted.

Definition set_bronze (db : database) (t : option (list raw_row)) : database :=
  {| bronze_produtos := t;
     silver_produtos := silver_produtos db;
     gold_produtos_fat := gold_produtos_fat db;
     gold_produtos_dim := gold_produtos_dim db |}.

Definition set_silver (db : database) (t : option (list silver_row)) : database :=
  {| bronze_produtos := bronze_produtos db;
     silver_produtos := t;
     gold_produtos_fat := gold_produtos_fat db;
     gold_produtos_dim := gold_produtos_dim db |}.

Definition set_fat (db : database) (t : option (list fat_row)) : database :=
  {| bronze_produtos := bronze_produtos db;
     silver_produtos := silver_produtos db;
     gold_produtos_fat := t;
     gold_produtos_dim := gold_produtos_dim db |}.

Definition set_dim (db : database) (t : option (list dim_row)) : database :=
  {| bronze_produtos := bronze_produtos db;
     silver_produtos := silver_produtos db;
     gold_produtos_fat := gold_produtos_fat db;
     gold_produtos_dim := t |}.

(** Lines 46-89: drop and recreate [bronze_produtos], list the landing
    directory, load each CSV file.  Only a failing [os.listdir] raises. *)
Definition bronze_stage (env : environment) (db : database) : outcome * database :=
  let db := set_bronze db (Some []) in
  match listdir env with
  | None => (Aborted, db)
  | Some entries => (Success, set_bronze db (Some (ingest (csv_files entries) [])))
  end.

(** Lines 102-167: query, clean, cast, stamp, then replace
    [silver_produtos].  The query raises when the bronze table is absent,
    [astype] when a cast fails; the table is dropped only after both. *)
Definition silver_stage (E : engine) (clock : datetime) (db : database)
  : outcome * database :=
  match bronze_produtos db with
  | None => (Aborted, db)
  | Some bronze =>
      let silver_df := map drop_rename (silver_query (scan_bronze E bronze)) in
      match astype silver_df with
      | None => (Aborted, db)
      | Some silver_df =>
          let stamp := strftime clock in
          let db := set_silver db (Some []) in
          match insert_silver stamp silver_df with
          | None => (Aborted, db)
          | Some inserted => (Success, set_silver db (Some inserted))
          end
      end
  end.

(** Lines 180-227: each query runs before its target is dropped and
    recreated. *)
Definition gold_stage (E : engine) (db : database) : outcome * database :=
  match silver_produtos db with
  | None => (Aborted, db)
  | Some silver =>
      let db := set_fat db (Some (df_fato (scan_silver_fat E silver))) in
      (Success, set_dim db (Some (df_dim (scan_silver_dim E silver))))
  end.

Definition and_then (r : outcome * database)
  (next : database -> outcome * database) : outcome * database :=
  match r with
  | (Success, db) => next db
  | (Aborted, db) => (Aborted, db)
  end.

(** The script from the first statement on the connection to the last
    table written. *)
Definition run (E : engine) (env : environment) (db : database)
  : outcome * database :=
  and_then (and_then (bronze_stage env db)
                     (silver_stage E (silver_now env)))
           (gold_stage E).

(** ** Vocabulary of the statements about the silver query *)

(** The rows the query selects, without their rank. *)
Definition selected (scan : list raw_row) : list raw_row :=
  map fst (silver_query scan).

Definition key_is (k : cell) (r : raw_row) : bool := cell_eqb (NATBR r) k.

(** The number of rows of a list that carry the business key [k]. *)
Definition count_key (k : cell) (l : list raw_row) : nat :=
  List.length (filter (key_is k) l).

(** [t] is strictly more recent than every row of [b] with key [k]. *)
Definition tops (k : cell) (b : list raw_row) (t : option timestamp) : bool :=
  forallb (fun r' => negb (key_is k r') || ts_lt (ingest_time r') t) b.

(** Some row of [rest] with key [k] is strictly more recent than every
    row of [b] with that key. *)
Definition beats (k : cell) (b rest : list raw_row) : bool :=
  existsb (fun r => key_is k r && tops k b (ingest_time r)) rest.

(** The five data columns of a raw row, under their business names. *)
Definition data_of (r : raw_row) : renamed_row := drop_rename (r, 1%nat).




(** A row of the current-state table without its processing timestamp. *)
Definition typed_of (r : silver_row) : typed_row :=
  {| typed_id := id r;
     typed_prod_name := prod_name r;
     typed_id_category := id_category r;
     typed_supplier := supplier r;
     typed_price := price r |}.



(** ** Concrete engines, clock readings and tables for the examples *)

(** An engine that scans every table in insertion order, and one that
    scans the bronze table backwards. *)
Definition fifo_engine : engine :=
  {| scan_bronze := fun t => t;
     scan_bronze_perm := fun t => Permutation_refl t;
     scan_silver_fat := fun t => t;
     scan_silver_fat_perm := fun t => Permutation_refl t;
     scan_silver_dim := fun t => t;
     scan_silver_dim_perm := fun t => Permutation_refl t |}.

Definition lifo_engine : engine :=
  {| scan_bronze := fun t => rev t;
     scan_bronze_perm := fun t => Permutation_sym (Permutation_rev t);
     scan_silver_fat := fun t => t;
     scan_silver_fat_perm := fun t => Permutation_refl t;
     scan_silver_dim := fun t => t;
     scan_silver_dim_perm := fun t => Permutation_refl t |}.

Definition clock_0705 : datetime :=
  {| year := 2025; month := 4; day := 9;
     hour := 7; minute := 5; second := 59; microsecond := 123 |}.

Definition clock_0706 : datetime :=
  {| year := 2025; month := 4; day := 9;
     hour := 7; minute := 6; second := 0; microsecond := 5 |}.

Definition clock_0910 : datetime :=
  {| year := 2025; month := 4; day := 9;
     hour := 9; minute := 10; second := 30; microsecond := 0 |}.

Definition empty_database : database :=
  {| bronze_produtos := None; silver_produtos := None;
     gold_produtos_fat := None; gold_produtos_dim := None |}.

Definition product (key name category vendor cost : string)
  (t : datetime) (source : string) : raw_row :=
  {| NATBR := Some key; MAKTX := Some name; WERKS := Some category;
     MAINS := Some vendor; LABST := Some cost;
     ingest_time := Some (timestamp_of_datetime t); file_name := Some source |}.

Definition with_bronze (t : list raw_row) : database :=
  set_bronze empty_database (Some t).

(** Key 1 ingested twice, key 2 once. *)
Definition two_versions : list raw_row :=
  [product "1" "pen" "c1" "7" "1.5" clock_0705 "a.csv";
   product "2" "ink" "c2" "8" "4" clock_0705 "a.csv";
   product "1" "quill" "c1" "7" "3.5" clock_0706 "b.csv"].


(** A key that is not a number. *)
Definition bad_key : list raw_row :=
  [product "1" "pen" "c1" "7" "1.5" clock_0705 "a.csv";
   product "abc" "ink" "c2" "8" "4" clock_0705 "a.csv"].


(** ** Vocabulary of the statements about the gold tables *)




(** ** Concrete landing files for the examples *)

Local Open Scope string_scope.

Definition SCHEMA : list string := ["NATBR"; "MAKTX"; "WERKS"; "MAINS"; "LABST"].

Definition csv (name : string) (t : datetime) (header : list string)
  (lines : list (list string)) : landing_file :=
  {| file := name; now := t;
     read_csv := Some {| columns := header; rows := map (map Some) lines |} |}.

Definition good_file : landing_file :=
  csv "a.csv" clock_0705 SCHEMA
      [["1"; "pen"; "c1"; "7"; "1.5"]; ["2"; "ink"; "c2"; "8"; "4"]].

Definition newer_file : landing_file :=
  csv "b.csv" clock_0706 SCHEMA [["1"; "quill"; "c1"; "7"; "3.5"]].

(** A file with a missing column, one with an extra column, one that
    [pd.read_csv] cannot parse. *)
Definition short_file : landing_file :=
  csv "c.csv" clock_0706 ["NATBR"; "MAKTX"; "WERKS"; "MAINS"]
      [["3"; "nib"; "c1"; "7"]].

Definition wide_file : landing_file :=
  csv "w.csv" clock_0706 (app SCHEMA ["NOTES"])
      [["3"; "nib"; "c1"; "7"; "2"; "new"]].

Definition unreadable_file : landing_file :=
  {| file := "d.csv"; now := clock_0706; read_csv := None |}.

(** Five columns under names that are not those of the schema. *)
Definition renamed_file : landing_file :=
  csv "e.csv" clock_0706 ["a"; "b"; "c"; "d"; "e"]
      [["3"; "nib"; "c1"; "7"; "2"]].

Definition bad_key_file : landing_file :=
  csv "f.csv" clock_0706 SCHEMA [["abc"; "ink"; "c2"; "8"; "4"]].


(** A directory entry that is not a CSV file. *)
Definition notes_file : landing_file :=
  csv "notes.txt" clock_0706 SCHEMA [["9"; "nib"; "c1"; "7"; "2"]].

Definition landing (entries : list landing_file) (t : datetime) : environment :=
  {| listdir := Some entries; silver_now := t |}.

(** A raw row left by an earlier run. *)
Definition old_row : raw_row :=
  product "5" "chalk" "c3" "9" "0.5" clock_0705 "old.csv".

Local Close Scope string_scope.

(** ** Vocabulary of the statements about the loader *)

(** The rows a file contributes to the raw table: none when it raises. *)
Definition loaded (f : landing_file) : list raw_row :=
  match load_file f with
  | Some new_rows => new_rows
  | None => []
  end.


(** A clock that reads a date before the cutoff, and a file loaded then. *)
Definition clock_2024 : datetime :=
  {| year := 2024; month := 12; day := 31;
     hour := 23; minute := 59; second := 59; microsecond := 0 |}.

Definition stale_file : landing_file :=
  {| file := "s.csv"; now := clock_2024;
     read_csv := Some {| columns := SCHEMA;
                         rows := [[Some "1"; Some "pen"; Some "c1"; Some "7"; Some "1.5"]]%string |} |}.

(** ** Reporting: the loader's log, counts, table listing and samples *)

(** What the loop reports for a file: [len(df)] when the insert went
    through (line 83), nothing but an error message when the body raised
    (line 85). *)
Definition processed (f : landing_file) : option nat :=
  let ingest_time := strftime (now f) in
  df <- read_csv f ;;
  let df := add_metadata (file f) ingest_time df in
  _ <- insert_bronze df ;;
  Some (List.length (rows df)).

(** The per-file reports of the loop, in the order of the loop. *)
Definition ingest_log (files : list landing_file) : list (string * option nat) :=
  map (fun f => (file f, processed f)) files.

(** The sum of the record counts reported for the files that loaded. *)
Definition logged_total (log : list (string * option nat)) : nat :=
  list_sum (map (fun entry => match snd entry with
                              | Some n => n
                              | None => O
                              end) log).

(** [SELECT COUNT( * ) FROM t]: raises when the table does not exist. *)
Definition count_rows {A} (t : option (list A)) : option nat :=
  option_map (@List.length A) t.

(** Lines 232-235: [bronze_count], [silver_count], [fact_count],
    [dim_count]. *)
Definition statistics (db : database) : option (nat * nat * nat * nat) :=
  bronze_count <- count_rows (bronze_produtos db) ;;
  silver_count <- count_rows (silver_produtos db) ;;
  fact_count <- count_rows (gold_produtos_fat db) ;;
  dim_count <- count_rows (gold_produtos_dim db) ;;
  Some (bronze_count, silver_count, fact_count, dim_count).

Definition TABLE_NAME_BRONZE : string := "bronze_produtos".
Definition TABLE_NAME_SILVER : string := "silver_produtos".
Definition TABLE_NAME_FAT : string := "gold_produtos_fat".
Definition TABLE_NAME_DIM : string := "gold_produtos_dim".

Definition listed {A} (name : string) (t : option A) : list string :=
  match t with
  | Some _ => [name]
  | None => []
  end.

(** [SHOW TABLES]: the tables that exist, by name. *)
Definition show_tables (db : database) : list string :=
  listed TABLE_NAME_BRONZE (bronze_produtos db)
  ++ listed TABLE_NAME_DIM (gold_produtos_dim db)
  ++ listed TABLE_NAME_FAT (gold_produtos_fat db)
  ++ listed TABLE_NAME_SILVER (silver_produtos db).

(** [exibir_amostra] on one table: the rows of [SELECT * FROM t LIMIT 5],
    taken from the head of the engine's [scan] of the table, and the
    count printed under them.  Both queries raise when the table does not
    exist. *)
Definition exibir_amostra {A} (scan : list A -> list A) (t : option (list A))
  : option (list A * nat) :=
  match t with
  | Some table => Some (firstn 5 (scan table), List.length table)
  | None => None
  end.

(** One clock reading is before another, to the second. *)
Definition seconds_of_day (t : datetime) : Z :=
  (hour t * 60 + minute t) * 60 + second t.

Definition earlier (t1 t2 : datetime) : bool :=
  (year t1 <? year t2)
  || ((year t1 =? year t2)
      && ((month t1 <? month t2)
          || ((month t1 =? month t2)
              && ((day t1 <? day t2)
                  || ((day t1 =? day t2)
                      && (seconds_of_day t1 <? seconds_of_day t2)))))).

(** The number of distinct key texts among the rows that pass the
    filter. *)
Definition cell_eq_dec (a b : cell) : {a = b} + {a <> b}.
Proof. decide equality. apply string_dec. Defined.

Definition distinct_keys (scan : list raw_row) : list cell :=
  nodup cell_eq_dec (map NATBR (filter recent scan)).

(** ** Vocabulary of the statements about the calendar *)

(** The days from the first of March of year 0 to the first of March of
    year [y], as [days_from_civil] counts them. *)
Definition year_start (y : Z) : Z :=
  (y / 400) * 146097 + (y - (y / 400) * 400) * 365
  + (y - (y / 400) * 400) / 4 - (y - (y / 400) * 400) / 100.

Definition leap_day (y : Z) : Z := if is_leap y then 1 else 0.

(** The days from the first of March to the day [d] of month [m]. *)
Definition day_of_march_year (m d : Z) : Z :=
  (153 * ((m + 9) mod 12) + 2) / 5 + d - 1.

(** * Properties *)

(** ** Printing and casting a clock reading *)

Lemma digit_val_digit_char (k : Z) :
  0 <= k <= 9 -> digit_val (digit_char k) = Some k.
Proof.
  intros H.
  assert (Hk : k = 0 \/ k = 1 \/ k = 2 \/ k = 3 \/ k = 4 \/ k = 5 \/ k = 6
               \/ k = 7 \/ k = 8 \/ k = 9) by lia.
  repeat (destruct Hk as [-> | Hk]; [reflexivity |]).
  subst k. reflexivity.
Qed.

Lemma number2_two_digits (n : Z) :
  0 <= n < 100 ->
  number2 (digit_char (n / 10)) (digit_char (n mod 10)) = Some n.
Proof.
  intros H. unfold number2.
  pose proof (Z.div_mod n 10 ltac:(lia)) as Hdm.
  pose proof (Z.mod_pos_bound n 10 ltac:(lia)) as Hm.
  assert (0 <= n / 10 <= 9).
  { split; [apply Z.div_pos; lia |].
    assert (n / 10 < 10) by (apply Z.div_lt_upper_bound; lia). lia. }
  rewrite !digit_val_digit_char by lia.
  f_equal. lia.
Qed.

Lemma number4_four_digits (n : Z) :
  0 <= n < 10000 ->
  number4 (digit_char (n / 1000)) (digit_char (n / 100 mod 10))
          (digit_char (n / 10 mod 10)) (digit_char (n mod 10)) = Some n.
Proof.
  intros H. unfold number4, number2.
  pose proof (Z.div_mod n 10 ltac:(lia)) as H1.
  pose proof (Z.div_mod (n / 10) 10 ltac:(lia)) as H2.
  pose proof (Z.div_mod (n / 100) 10 ltac:(lia)) as H3.
  pose proof (Z.mod_pos_bound n 10 ltac:(lia)).
  pose proof (Z.mod_pos_bound (n / 10) 10 ltac:(lia)).
  pose proof (Z.mod_pos_bound (n / 100) 10 ltac:(lia)).
  assert (E1 : n / 10 / 10 = n / 100) by (rewrite Z.div_div by lia; reflexivity).
  assert (E2 : n / 100 / 10 = n / 1000) by (rewrite Z.div_div by lia; reflexivity).
  rewrite E1 in H2. rewrite E2 in H3.
  assert (0 <= n / 1000 <= 9).
  { split; [apply Z.div_pos; lia |].
    assert (n / 1000 < 10) by (apply Z.div_lt_upper_bound; lia). lia. }
  rewrite !digit_val_digit_char by lia.
  f_equal. lia.
Qed.

Lemma valid_fields_bounds y m d h mi s :
  valid_fields y m d h mi s = true ->
  0 <= y < 10000 /\ 0 <= m < 100 /\ 0 <= d < 100 /\ 0 <= h < 100
  /\ 0 <= mi < 100 /\ 0 <= s < 100.
Proof.
  unfold valid_fields. rewrite !andb_true_iff.
  intros [[[[[[[[[[[Hy1 Hy2] Hm1] Hm2] Hd1] Hd2] Hh1] Hh2] Hi1] Hi2] Hs1] Hs2].
  assert (days_in_month y m <= 31).
  { unfold days_in_month.
    destruct (m =? 2); [destruct (is_leap y); lia |].
    destruct ((m =? 4) || (m =? 6) || (m =? 9) || (m =? 11)); lia. }
  lia.
Qed.

(** A valid clock reading, printed by [strftime] and cast back by the
    engine, is the reading truncated to the second. *)
Lemma cast_timestamp_strftime (t : datetime) :
  valid_datetime t = true ->
  cast_timestamp (strftime t) = Some (timestamp_of_datetime t).
Proof.
  unfold valid_datetime. rewrite !andb_true_iff. intros [[Hv _] _].
  pose proof (valid_fields_bounds _ _ _ _ _ _ Hv) as (Hy & Hm & Hd & Hh & Hi & Hs).
  unfold cast_timestamp, strftime, chars.
  rewrite list_ascii_of_string_of_list_ascii.
  unfold four_digits, two_digits. cbn [app].
  cbn [Ascii.eqb Bool.eqb andb].
  rewrite number4_four_digits by assumption.
  rewrite !number2_two_digits by assumption.
  rewrite Hv. reflexivity.
Qed.

Lemma cutoff_is_CUTOFF : cast_timestamp CUTOFF = Some cutoff.
Proof. reflexivity. Qed.

(** [strftime] prints whole seconds: two readings that differ only in
    their microseconds print the same. *)
Lemma strftime_second_resolution (t : datetime) (us : Z) :
  strftime {| year := year t; month := month t; day := day t;
              hour := hour t; minute := minute t; second := second t;
              microsecond := us |} = strftime t.
Proof. reflexivity. Qed.

(** ** Cells, timestamps and the error monad *)

Lemma cell_eqb_eq (a b : cell) : cell_eqb a b = true <-> a = b.
Proof.
  destruct a as [x |], b as [y |]; simpl; try (split; congruence).
  rewrite String.eqb_eq. split; congruence.
Qed.

Lemma cell_eqb_refl (a : cell) : cell_eqb a a = true.
Proof. apply cell_eqb_eq. reflexivity. Qed.

Lemma cell_eqb_sym (a b : cell) : cell_eqb a b = cell_eqb b a.
Proof.
  destruct (cell_eqb a b) eqn:E1, (cell_eqb b a) eqn:E2; try reflexivity.
  - apply cell_eqb_eq in E1. subst. rewrite cell_eqb_refl in E2. discriminate.
  - apply cell_eqb_eq in E2. subst. rewrite cell_eqb_refl in E1. discriminate.
Qed.

Lemma ts_lt_irrefl a : ts_lt a a = false.
Proof. destruct a; simpl; [apply Z.ltb_irrefl | reflexivity]. Qed.

Lemma ts_lt_trans a b c :
  ts_lt a b = true -> ts_lt b c = true -> ts_lt a c = true.
Proof.
  destruct a, b, c; simpl; try congruence; rewrite !Z.ltb_lt; lia.
Qed.

Lemma ts_le_lt_trans a b c :
  ts_le a b = true -> ts_lt b c = true -> ts_lt a c = true.
Proof.
  unfold ts_le. rewrite negb_true_iff.
  destruct a, b, c; simpl; try congruence;
    rewrite ?Z.ltb_lt, ?Z.ltb_ge; try lia; congruence.
Qed.

Lemma ts_lt_le_trans a b c :
  ts_lt a b = true -> ts_le b c = true -> ts_lt a c = true.
Proof.
  unfold ts_le. rewrite negb_true_iff.
  destruct a, b, c; simpl; try congruence;
    rewrite ?Z.ltb_lt, ?Z.ltb_ge; try lia; congruence.
Qed.

Lemma ts_lt_le a b : ts_lt a b = true -> ts_le a b = true.
Proof.
  unfold ts_le. rewrite negb_true_iff.
  destruct a, b; simpl; try congruence; rewrite ?Z.ltb_lt, ?Z.ltb_ge; lia.
Qed.


Lemma ts_le_refl a : ts_le a a = true.
Proof. unfold ts_le. rewrite ts_lt_irrefl. reflexivity. Qed.

Lemma traverse_length {A B} (f : A -> option B) l r :
  traverse f l = Some r -> List.length r = List.length l.
Proof.
  revert r. induction l as [| a tl IH]; simpl; intros r H.
  - injection H as <-. reflexivity.
  - destruct (f a) as [b |]; simpl in H; [| discriminate].
    destruct (traverse f tl) as [bs |]; simpl in H; [| discriminate].
    injection H as <-. simpl. f_equal. apply IH. reflexivity.
Qed.

Lemma traverse_Forall2 {A B} (f : A -> option B) l r :
  traverse f l = Some r <-> Forall2 (fun a b => f a = Some b) l r.
Proof.
  revert r. induction l as [| a tl IH]; simpl; intros r.
  - split; intros H; [injection H as <-; constructor | inversion H; reflexivity].
  - split.
    + destruct (f a) as [b |] eqn:Ea; simpl; [| discriminate].
      destruct (traverse f tl) as [bs |]; simpl; [| discriminate].
      intros H. injection H as <-. constructor; [assumption |].
      apply IH. reflexivity.
    + intros H. inversion H as [| a' b tl' bs Hab Htl]; subst.
      rewrite Hab. simpl. apply IH in Htl. rewrite Htl. reflexivity.
Qed.

Lemma traverse_None {A B} (f : A -> option B) l :
  traverse f l = None <-> exists a, In a l /\ f a = None.
Proof.
  induction l as [| a tl IH]; simpl.
  - split; [discriminate | intros (a & [] & _)].
  - destruct (f a) as [b |] eqn:Ea; simpl.
    + destruct (traverse f tl) as [bs |]; simpl.
      * split; [discriminate |].
        intros (x & [<- | Hx] & Hn); [congruence |].
        destruct IH as [_ IH]. discriminate IH. eauto.
      * split; [| reflexivity]. intros _.
        destruct IH as [IH _]. destruct (IH eq_refl) as (x & Hx & Hn). eauto.
    + split; [| reflexivity]. intros _. eauto.
Qed.


Lemma traverse_In_inv {A B} (f : A -> option B) l r b :
  traverse f l = Some r -> In b r -> exists a, f a = Some b /\ In a l.
Proof.
  rewrite traverse_Forall2. induction 1 as [| x y l' r' Hxy _ IH]; simpl.
  - intros [].
  - intros [<- | Hb]; [eauto |]. destruct (IH Hb) as (a & Ha & Hin). eauto.
Qed.




Lemma filter_nil_Permutation {A} (p : A -> bool) l l' :
  Permutation l l' -> filter p l = [] -> filter p l' = [].
Proof.
  intros HP H.
  destruct (filter p l') as [| x tl] eqn:E; [reflexivity |].
  assert (Hx : In x (filter p l')) by (rewrite E; left; reflexivity).
  apply filter_In in Hx. destruct Hx as [Hx Hp].
  apply Permutation_sym in HP.
  assert (Hin : In x (filter p l)).
  { apply filter_In. split; [eapply Permutation_in; eassumption | assumption]. }
  rewrite H in Hin. destruct Hin.
Qed.

Lemma filter_Permutation {A} (p : A -> bool) l l' :
  Permutation l l' -> Permutation (filter p l) (filter p l').
Proof.
  induction 1 as [| x l l' HP IH | x y l | l l' l'' HP1 IH1 HP2 IH2]; simpl.
  - constructor.
  - destruct (p x); [constructor |]; assumption.
  - destruct (p x), (p y); try apply Permutation_refl. apply perm_swap.
  - eapply Permutation_trans; eassumption.
Qed.

(** ** The silver query: one most recent row per key *)

Lemma tops_app k b r t :
  tops k (b ++ [r]) t
  = tops k b t && (negb (key_is k r) || ts_lt (ingest_time r) t).
Proof.
  unfold tops. rewrite forallb_app. simpl. rewrite andb_true_r. reflexivity.
Qed.

Lemma tops_mono k b t t' :
  tops k b t = true -> ts_le t t' = true -> tops k b t' = true.
Proof.
  unfold tops. rewrite !forallb_forall. intros H Hle x Hx.
  specialize (H x Hx). apply orb_true_iff in H. apply orb_true_iff.
  destruct H as [H | H]; [left; assumption | right].
  eapply ts_lt_le_trans; eassumption.
Qed.

Lemma tops_false k b t :
  tops k b t = false ->
  exists r0, In r0 b /\ key_is k r0 = true /\ ts_le t (ingest_time r0) = true.
Proof.
  unfold tops. induction b as [| x b IH]; simpl; [discriminate |].
  destruct (key_is k x) eqn:Ek; simpl.
  - destruct (ts_lt (ingest_time x) t) eqn:Et; simpl.
    + intros H. destruct (IH H) as (r0 & H0 & H1 & H2). eauto 6.
    + intros _. exists x. unfold ts_le. rewrite Et. auto.
  - intros H. destruct (IH H) as (r0 & H0 & H1 & H2). eauto 6.
Qed.

Lemma length_filter_0 {A} (p : A -> bool) l :
  (List.length (filter p l) =? 0)%nat = forallb (fun x => negb (p x)) l.
Proof.
  induction l as [| x l IH]; simpl; [reflexivity |].
  destruct (p x); simpl; [reflexivity | assumption].
Qed.

Lemma forallb_eq {A} (p q : A -> bool) l :
  (forall x, p x = q x) -> forallb p l = forallb q l.
Proof.
  intros H. induction l as [| x l IH]; simpl; [reflexivity |].
  rewrite H, IH. reflexivity.
Qed.

(** The rank of a row with key [k] is 1 exactly when it is strictly more
    recent than the rows of its key scanned before it and at least as
    recent as those scanned after it. *)
Lemma row_number_1 k b r a :
  key_is k r = true ->
  (row_number b r a =? 1)%nat
  = tops k b (ingest_time r)
    && forallb (fun r' => negb (key_is k r' && ts_lt (ingest_time r) (ingest_time r'))) a.
Proof.
  intros Hk. apply cell_eqb_eq in Hk.
  unfold row_number.
  match goal with
  | |- (S (?x + ?y) =? 1)%nat = _ =>
      replace (S (x + y) =? 1)%nat with ((x =? 0)%nat && (y =? 0)%nat)
        by (destruct x, y; reflexivity)
  end.
  rewrite !length_filter_0. unfold tops. f_equal.
  - apply forallb_eq. intros x. unfold same_key, key_is, ts_le. rewrite Hk.
    rewrite negb_andb, negb_involutive. reflexivity.
  - apply forallb_eq. intros x. unfold same_key, key_is. rewrite Hk. reflexivity.
Qed.

Lemma beats_ext k b b' rest :
  (forall r, In r rest -> key_is k r = true ->
             tops k b (ingest_time r) = tops k b' (ingest_time r)) ->
  beats k b rest = beats k b' rest.
Proof.
  unfold beats. induction rest as [| x rest IH]; simpl; intros H; [reflexivity |].
  rewrite IH by auto. f_equal.
  destruct (key_is k x) eqn:Ek; simpl; [apply H; auto | reflexivity].
Qed.

(** Among the rows ranked 1 there is exactly one of key [k] when some row
    of that key still to scan beats those already scanned, and none
    otherwise. *)
Lemma count_key_rank k (rest : list raw_row) : forall b,
  count_key k (map fst (filter (fun p => (snd p =? 1)%nat) (rank b rest)))
  = if beats k b rest then 1%nat else 0%nat.
Proof.
  induction rest as [| r tl IH]; intros b; [reflexivity |].
  cbn [rank filter snd].
  destruct (key_is k r) eqn:Ek.
  - rewrite (row_number_1 k) by assumption.
    unfold beats. cbn [existsb]. rewrite Ek. cbn [andb].
    destruct (tops k b (ingest_time r)) eqn:Et; cbn [andb orb].
    + destruct (forallb _ tl) eqn:Ea.
      * (* the row is selected: nothing after it beats it *)
        cbn [map fst]. unfold count_key in *. cbn [filter]. rewrite Ek.
        cbn [List.length]. f_equal. rewrite IH.
        assert (Hb : beats k (b ++ [r]) tl = false).
        { unfold beats. apply not_true_iff_false. intros Hex.
          apply existsb_exists in Hex. destruct Hex as (x & Hx & Hc).
          apply andb_true_iff in Hc. destruct Hc as [Hkx Htx].
          rewrite tops_app, Ek in Htx. cbn [negb orb] in Htx.
          apply andb_true_iff in Htx. destruct Htx as [_ Hlt].
          rewrite forallb_forall in Ea. specialize (Ea x Hx).
          rewrite Hkx, Hlt in Ea. discriminate. }
        rewrite Hb. reflexivity.
      * (* a later row is strictly more recent, and beats the scanned ones *)
        rewrite IH.
        assert (Hb : beats k (b ++ [r]) tl = true).
        { assert (Hex : exists x, In x tl /\ key_is k x = true
                          /\ ts_lt (ingest_time r) (ingest_time x) = true).
          { clear - Ea. induction tl as [| x tl IH]; simpl in Ea; [discriminate |].
            destruct (key_is k x && ts_lt (ingest_time r) (ingest_time x)) eqn:E; simpl in Ea.
            - apply andb_true_iff in E. exists x. simpl. tauto.
            - destruct (IH Ea) as (y & Hy & H1 & H2). exists y. simpl. tauto. }
          destruct Hex as (x & Hx & Hkx & Hlt).
          unfold beats. apply existsb_exists. exists x. split; [assumption |].
          rewrite Hkx, tops_app, Ek, Hlt. cbn [negb orb andb]. rewrite andb_true_r.
          eapply tops_mono; [eassumption | apply ts_lt_le; assumption]. }
        rewrite Hb. reflexivity.
    + (* a scanned row is at least as recent: the row changes nothing *)
      rewrite IH. fold (beats k b tl).
      destruct (tops_false _ _ _ Et) as (r0 & Hr0 & Hk0 & Hle).
      assert (Hb : beats k (b ++ [r]) tl = beats k b tl).
      { apply beats_ext. intros x Hx Hkx. rewrite tops_app, Ek. cbn [negb orb].
        destruct (tops k b (ingest_time x)) eqn:Etx; [| reflexivity]. cbn [andb].
        eapply ts_le_lt_trans; [eassumption |].
        unfold tops in Etx. rewrite forallb_forall in Etx.
        specialize (Etx r0 Hr0). rewrite Hk0 in Etx. exact Etx. }
      rewrite Hb. reflexivity.
  - (* a row of another key *)
    assert (Hc : forall n, count_key k (map fst
               (if (n =? 1)%nat
                then (r, row_number b r tl) :: filter (fun p => (snd p =? 1)%nat) (rank (b ++ [r]) tl)
                else filter (fun p => (snd p =? 1)%nat) (rank (b ++ [r]) tl)))
             = count_key k (map fst (filter (fun p => (snd p =? 1)%nat) (rank (b ++ [r]) tl)))).
    { intros n. destruct (n =? 1)%nat; [| reflexivity].
      unfold count_key. cbn [map fst filter]. rewrite Ek. reflexivity. }
    rewrite Hc, IH. unfold beats at 2. cbn [existsb]. rewrite Ek. cbn [andb orb].
    fold (beats k b tl).
    assert (Hb : beats k (b ++ [r]) tl = beats k b tl).
    { apply beats_ext. intros x Hx Hkx.
      rewrite tops_app, Ek. cbn [negb orb]. apply andb_true_r. }
    rewrite Hb. reflexivity.
Qed.

Lemma rank_In r n (rest : list raw_row) : forall b,
  In (r, n) (rank b rest) ->
  exists l1 l2, rest = l1 ++ r :: l2 /\ n = row_number (b ++ l1) r l2.
Proof.
  induction rest as [| x tl IH]; intros b; simpl; [intros [] |].
  intros [H | H].
  - injection H as -> <-. exists [], tl. rewrite app_nil_r. auto.
  - destruct (IH _ H) as (l1 & l2 & -> & ->).
    exists (x :: l1), l2. rewrite <- app_assoc. auto.
Qed.

(** A selected row passed the filter and no row of its key that passed is
    more recent. *)
Lemma selected_max scan r :
  In r (selected scan) ->
  In r (filter recent scan)
  /\ forall r', In r' (filter recent scan) -> NATBR r' = NATBR r ->
                ts_le (ingest_time r') (ingest_time r) = true.
Proof.
  unfold selected, silver_query, ranked. intros H.
  apply in_map_iff in H. destruct H as ([r0 n] & Hr & H). simpl in Hr. subst r0.
  apply filter_In in H. destruct H as [H Hn]. simpl in Hn.
  apply rank_In in H. destruct H as (l1 & l2 & Hsplit & ->).
  rewrite (row_number_1 (NATBR r)) in Hn by apply cell_eqb_refl.
  apply andb_true_iff in Hn. destruct Hn as [Hb Ha].
  rewrite Hsplit. split; [apply in_elt |].
  intros r' Hin Hk.
  assert (Hk' : key_is (NATBR r) r' = true) by (apply cell_eqb_eq; assumption).
  apply in_app_or in Hin. destruct Hin as [Hin | [<- | Hin]].
  - unfold tops in Hb. rewrite forallb_forall in Hb.
    specialize (Hb r' Hin). rewrite Hk' in Hb. apply ts_lt_le. exact Hb.
  - apply ts_le_refl.
  - rewrite forallb_forall in Ha. specialize (Ha r' Hin).
    rewrite Hk' in Ha. unfold ts_le. exact Ha.
Qed.

(** Exactly one row is selected for each key that passed the filter. *)
Lemma selected_count scan k :
  In k (map NATBR (filter recent scan)) -> count_key k (selected scan) = 1%nat.
Proof.
  intros H. unfold selected, silver_query, ranked.
  rewrite count_key_rank.
  assert (Hb : beats k [] (filter recent scan) = true).
  { apply in_map_iff in H. destruct H as (r & Hk & Hr).
    unfold beats. apply existsb_exists. exists r. split; [assumption |].
    unfold key_is. rewrite Hk, cell_eqb_refl. reflexivity. }
  rewrite Hb. reflexivity.
Qed.

Lemma count_key_pos k l :
  (0 < count_key k l)%nat -> exists r, In r l /\ NATBR r = k.
Proof.
  unfold count_key. induction l as [| x l IH]; simpl; [lia |].
  destruct (key_is k x) eqn:E.
  - intros _. exists x. split; [auto | apply cell_eqb_eq; exact E].
  - intros H. destruct (IH H) as (r & Hr & Hk). eauto.
Qed.

Lemma count_key_In k l r :
  In r l -> NATBR r = k -> (0 < count_key k l)%nat.
Proof.
  unfold count_key. intros Hin Hk.
  assert (H : In r (filter (key_is k) l)).
  { apply filter_In. split; [assumption | apply cell_eqb_eq; assumption]. }
  destruct (filter (key_is k) l); [destruct H | simpl; lia].
Qed.

(** A list in which every key counts once has no repeated row. *)
Lemma count_key_NoDup l :
  (forall r, In r l -> count_key (NATBR r) l = 1%nat) -> NoDup (map NATBR l).
Proof.
  induction l as [| x l IH]; simpl; intros H; [constructor |].
  constructor.
  - intros Hin. apply in_map_iff in Hin. destruct Hin as (y & Hy & Hin).
    specialize (H x (or_introl eq_refl)).
    unfold count_key in H. simpl in H. unfold key_is at 1 in H.
    rewrite cell_eqb_refl in H. simpl in H.
    pose proof (count_key_In (NATBR x) l y Hin Hy) as Hpos.
    unfold count_key in Hpos. lia.
  - apply IH. intros r Hr. specialize (H r (or_intror Hr)).
    unfold count_key in *. simpl in H.
    destruct (key_is (NATBR r) x); simpl in H; [| assumption].
    pose proof (count_key_In (NATBR r) l r Hr eq_refl) as Hpos.
    unfold count_key in Hpos. lia.
Qed.

Lemma selected_keys scan r :
  In r (selected scan) -> count_key (NATBR r) (selected scan) = 1%nat.
Proof.
  intros H. apply selected_count. apply in_map.
  apply selected_max in H. apply H.
Qed.

Lemma selected_NoDup scan : NoDup (map NATBR (selected scan)).
Proof. apply count_key_NoDup. intros r. apply selected_keys. Qed.

(** The selection always covers the keys that passed the filter. *)
Lemma selected_covers scan k :
  In k (map NATBR (filter recent scan)) ->
  exists r, In r (selected scan) /\ NATBR r = k.
Proof.
  intros H. apply count_key_pos. rewrite selected_count by assumption. lia.
Qed.

Lemma recent_Permutation scan scan' r :
  Permutation scan scan' ->
  In r (filter recent scan) -> In r (filter recent scan').
Proof.
  intros HP. apply Permutation_in. apply filter_Permutation. assumption.
Qed.





Lemma drop_rename_data_of scan :
  map drop_rename (silver_query scan) = map data_of (selected scan).
Proof. unfold selected. rewrite map_map. apply map_ext. intros []. reflexivity. Qed.

(** ** The stages *)


Lemma insert_silver_Some stamp df inserted :
  insert_silver stamp df = Some inserted ->
  exists t, inserted = map (stamp_row t) df.
Proof.
  unfold insert_silver, insert_silver_row.
  destruct (cast_timestamp_cell (Some stamp)) as [t |] eqn:E; simpl.
  - intros H. exists t. revert inserted H.
    induction df as [| r df IH]; simpl; intros inserted H.
    + injection H as <-. reflexivity.
    + destruct (traverse _ df) as [rs |]; simpl in H; [| discriminate].
      injection H as <-. f_equal. apply IH. reflexivity.
  - destruct df as [| r df]; simpl; [| discriminate].
    intros H. injection H as <-. exists None. reflexivity.
Qed.

Lemma insert_silver_valid clock df :
  valid_datetime clock = true ->
  insert_silver (strftime clock) df
  = Some (map (stamp_row (Some (timestamp_of_datetime clock))) df).
Proof.
  intros Hv. unfold insert_silver, insert_silver_row, cast_timestamp_cell.
  rewrite cast_timestamp_strftime by assumption. simpl.
  induction df as [| r df IH]; simpl; [reflexivity |]. rewrite IH. reflexivity.
Qed.

(** What a successful silver stage did. *)
Lemma silver_stage_Success E clock db db' :
  silver_stage E clock db = (Success, db') ->
  exists bronze typed t,
    bronze_produtos db = Some bronze
    /\ astype (map data_of (selected (scan_bronze E bronze))) = Some typed
    /\ db' = set_silver db (Some (map (stamp_row t) typed)).
Proof.
  unfold silver_stage.
  destruct (bronze_produtos db) as [bronze |]; [| discriminate].
  rewrite drop_rename_data_of.
  destruct (astype _) as [typed |] eqn:Ea; [| discriminate].
  destruct (insert_silver _ typed) as [inserted |] eqn:Ei; [| discriminate].
  intros H. injection H as <-.
  destruct (insert_silver_Some _ _ _ Ei) as (t & ->).
  exists bronze, typed, t. split; [reflexivity | split; [exact Ea | reflexivity]].
Qed.

(** A failing cast aborts the silver stage before any table is touched. *)
Lemma silver_stage_cast_failure E clock db bronze :
  bronze_produtos db = Some bronze ->
  astype (map drop_rename (silver_query (scan_bronze E bronze))) = None ->
  silver_stage E clock db = (Aborted, db).
Proof. unfold silver_stage. intros -> ->. reflexivity. Qed.



(** ** C1: one current row per key, taken from its most recent raw row *)




(** ** [DISTINCT] and the equality it uses *)








Lemma fat_eqb_id x y : fat_eqb x y = true -> fat_id x = fat_id y.
Proof.
  unfold fat_eqb. rewrite !andb_true_iff, Z.eqb_eq. tauto.
Qed.

Lemma dim_eqb_eq x y : dim_eqb x y = true <-> x = y.
Proof.
  unfold dim_eqb. rewrite !andb_true_iff, !Z.eqb_eq, cell_eqb_eq.
  destruct x, y; simpl. split.
  - intros [[-> ->] ->]. reflexivity.
  - intros H. injection H as -> -> ->. auto.
Qed.




Section Distinct.
Context {A : Type} (eqb : A -> A -> bool).
Hypothesis eqb_refl : forall x, eqb x x = true.
Hypothesis eqb_sym : forall x y, eqb x y = true -> eqb y x = true.
Hypothesis eqb_trans :
  forall x y z, eqb x y = true -> eqb y z = true -> eqb x z = true.


Lemma distinct_length l : (List.length (distinct eqb l) <= List.length l)%nat.
Proof.
  induction l as [| a l IH]; simpl; [lia |].
  pose proof (filter_length_le (fun y => negb (eqb a y)) (distinct eqb l)). lia.
Qed.




End Distinct.

(** ** C2: a failing cast aborts the run and leaves the table as it was *)

(** C2: when a cast of [astype] fails on a selected row, the run aborts,
    and the current-state table (like the fact and dimension tables) is
    exactly the table found at the start: the cast comes before the
    [DROP TABLE], so nothing was replaced, in whole or in part. *)
Theorem cast_failure_aborts_before_replace
  (E : engine) (env : environment) (db : database)
  (entries : list landing_file) (p : raw_row * nat) :
  listdir env = Some entries ->
  In p (silver_query (scan_bronze E (ingest (csv_files entries) []))) ->
  astype_row (drop_rename p) = None ->
  fst (run E env db) = Aborted
  /\ silver_produtos (snd (run E env db)) = silver_produtos db
  /\ gold_produtos_fat (snd (run E env db)) = gold_produtos_fat db
  /\ gold_produtos_dim (snd (run E env db)) = gold_produtos_dim db.
Proof.
  intros Hl Hp Hcast. unfold run, bronze_stage. rewrite Hl. cbn [and_then].
  rewrite (silver_stage_cast_failure _ _ _ (ingest (csv_files entries) [])).
  - cbn [and_then fst snd]. auto.
  - reflexivity.
  - apply traverse_None. exists (drop_rename p). split; [| assumption].
    apply in_map. assumption.
Qed.

Lemma cast_failure_aborts_before_replace_witness :
  fst (run fifo_engine (landing [good_file; bad_key_file] clock_0910)
           (snd (run fifo_engine (landing [good_file] clock_0706) empty_database)))
  = Aborted
  /\ silver_produtos
       (snd (run fifo_engine (landing [good_file; bad_key_file] clock_0910)
                 (snd (run fifo_engine (landing [good_file] clock_0706) empty_database))))
     = silver_produtos (snd (run fifo_engine (landing [good_file] clock_0706) empty_database))
  /\ gold_produtos_fat
       (snd (run fifo_engine (landing [good_file; bad_key_file] clock_0910)
                 (snd (run fifo_engine (landing [good_file] clock_0706) empty_database))))
     = gold_produtos_fat (snd (run fifo_engine (landing [good_file] clock_0706) empty_database))
  /\ gold_produtos_dim
       (snd (run fifo_engine (landing [good_file; bad_key_file] clock_0910)
                 (snd (run fifo_engine (landing [good_file] clock_0706) empty_database))))
     = gold_produtos_dim (snd (run fifo_engine (landing [good_file] clock_0706) empty_database)).
Proof.
  apply (cast_failure_aborts_before_replace fifo_engine
           (landing [good_file; bad_key_file] clock_0910) _
           [good_file; bad_key_file]
           (product "abc" "ink" "c2" "8" "4" clock_0706 "f.csv", 1%nat)).
  - reflexivity.
  - vm_compute. auto.
  - vm_compute. reflexivity.
Defined.

(** ** C8: which row wins a tie *)




(** ** C4: running the transformer and the splitter again *)









(** ** C5: the fact and dimension tables *)



(** ** The loader *)

(** The loop only appends: each file adds the rows it loads after those
    already there, a file that raises adds none. *)
Lemma ingest_concat files : forall bronze,
  ingest files bronze = bronze ++ List.concat (map loaded files).
Proof.
  induction files as [| f tl IH]; intros bronze; simpl.
  - rewrite app_nil_r. reflexivity.
  - unfold loaded at 1. destruct (load_file f) as [new_rows |]; rewrite IH.
    + rewrite app_assoc. reflexivity.
    + reflexivity.
Qed.

Lemma csv_files_app l1 l2 : csv_files (l1 ++ l2) = csv_files l1 ++ csv_files l2.
Proof. unfold csv_files. apply filter_app. Qed.

(** A file that raises leaves the raw table as if it were not there. *)
Lemma ingest_skips pre bad post bronze :
  load_file bad = None ->
  ingest (csv_files (pre ++ bad :: post)) bronze
  = ingest (csv_files (pre ++ post)) bronze.
Proof.
  intros Hbad. rewrite !ingest_concat. f_equal.
  rewrite !csv_files_app, !map_app, !concat_app. f_equal.
  unfold csv_files at 1. simpl.
  destruct (endswith (file bad) EXT); [| reflexivity].
  simpl. unfold loaded at 1. rewrite Hbad. reflexivity.
Qed.

Lemma bronze_stage_listed env db entries :
  listdir env = Some entries ->
  bronze_stage env db
  = (Success, set_bronze db (Some (ingest (csv_files entries) []))).
Proof. unfold bronze_stage. intros ->. reflexivity. Qed.

Lemma index_of_None name l : ~ In name l -> index_of name l = None.
Proof.
  induction l as [| x l IH]; simpl; intros H; [reflexivity |].
  destruct (String.eqb x name) eqn:E.
  - apply String.eqb_eq in E. tauto.
  - rewrite IH by tauto. reflexivity.
Qed.

(** On a frame without metadata columns, the two assignments add them
    last, in this order. *)
Lemma add_metadata_plain f_name stamp df :
  ~ In "ingest_time"%string (columns df) ->
  ~ In "file_name"%string (columns df) ->
  add_metadata f_name stamp df
  = {| columns := columns df ++ ["ingest_time"; "file_name"]%string;
       rows := map (fun r => r ++ [Some stamp; Some f_name]) (rows df) |}.
Proof.
  intros H1 H2. unfold add_metadata, set_column at 2.
  rewrite (index_of_None _ _ H1). unfold set_column. cbn [columns rows].
  rewrite index_of_None.
  - rewrite <- app_assoc, map_map. f_equal. apply map_ext.
    intros r. rewrite <- app_assoc. reflexivity.
  - intros H. apply in_app_or in H. destruct H as [H | [H | []]];
      [tauto | discriminate].
Qed.

Lemma insert_row_plain line c5 c6 :
  insert_row (line ++ [c5; c6])
  = match cast_timestamp_cell c5, line with
    | Some t, [c0; c1; c2; c3; c4] =>
        Some {| NATBR := c0; MAKTX := c1; WERKS := c2; MAINS := c3; LABST := c4;
                ingest_time := t; file_name := c6 |}
    | _, _ => None
    end.
Proof.
  destruct line as [| c0 [| c1 [| c2 [| c3 [| c4 [| c tl]]]]]]; simpl;
    try (destruct (cast_timestamp_cell c5); reflexivity).
  destruct tl as [| c' [| c'' tl]]; simpl;
    destruct (cast_timestamp_cell c5); reflexivity.
Qed.

(** The rows a file without metadata columns appends all carry the cast
    of the one text [strftime] printed for the file, and the file's name. *)
Lemma load_file_plain f df rs r :
  read_csv f = Some df ->
  ~ In "ingest_time"%string (columns df) ->
  ~ In "file_name"%string (columns df) ->
  load_file f = Some rs -> In r rs ->
  cast_timestamp_cell (Some (strftime (now f))) = Some (ingest_time r)
  /\ file_name r = Some (file f)
  /\ List.length (columns df) = 5%nat.
Proof.
  intros Hread H1 H2 Hload Hr. unfold load_file in Hload.
  rewrite Hread in Hload. cbn [bind] in Hload.
  rewrite add_metadata_plain in Hload by assumption.
  unfold insert_bronze in Hload. cbn [columns rows] in Hload.
  destruct (List.length _ =? 7)%nat eqn:El; [| discriminate].
  apply Nat.eqb_eq in El. rewrite length_app in El. simpl in El.
  destruct (traverse_In_inv _ _ _ _ Hload Hr) as (line & Hline & Hin).
  apply in_map_iff in Hin. destruct Hin as (l & <- & _).
  rewrite insert_row_plain in Hline.
  destruct (cast_timestamp_cell (Some (strftime (now f)))) as [t |];
    [| discriminate].
  destruct l as [| c0 [| c1 [| c2 [| c3 [| c4 [| c tl]]]]]]; try discriminate.
  injection Hline as <-. cbn. repeat split. lia.
Qed.


(** ** C3: the raw table over a run *)

Lemma silver_stage_bronze E clock db :
  bronze_produtos (snd (silver_stage E clock db)) = bronze_produtos db.
Proof.
  unfold silver_stage. destruct (bronze_produtos db) as [bronze |] eqn:Eb;
    [| assumption].
  destruct (astype _); [| assumption].
  destruct (insert_silver _ _); assumption.
Qed.

Lemma gold_stage_bronze E db :
  bronze_produtos (snd (gold_stage E db)) = bronze_produtos db.
Proof. unfold gold_stage. destruct (silver_produtos db); reflexivity. Qed.

(** C3, as stated, fails: the run itself drops the raw table before it
    loads anything (line 47), so a row left by an earlier run is gone
    after a run over an empty landing directory. *)
Lemma run_drops_earlier_raw_rows :
  bronze_produtos (with_bronze [old_row]) = Some [old_row]
  /\ bronze_produtos (snd (run fifo_engine (landing [] clock_0910) (with_bronze [old_row])))
     = Some [].
Proof. split; reflexivity. Qed.

(** C3 (amended): every run drops and recreates the raw table, like the
    current-state, fact and dimension tables, so the raw table after the
    loader holds the rows of this run's files and nothing of an earlier
    run; within the run the raw table is append-only: the loop only adds
    rows after those already loaded, and the later stages leave the raw
    table alone.  A run that succeeds leaves a database that does not
    depend on the one it started from. *)
Theorem raw_table_reset_then_append_only
  (E : engine) (env : environment) (db : database) :
  bronze_produtos (snd (bronze_stage env db))
  = Some (match listdir env with
          | Some entries => List.concat (map loaded (csv_files entries))
          | None => []
          end)
  /\ (forall files bronze,
        ingest files bronze = bronze ++ List.concat (map loaded files))
  /\ (forall clock db1,
        bronze_produtos (snd (silver_stage E clock db1)) = bronze_produtos db1)
  /\ (forall db1, bronze_produtos (snd (gold_stage E db1)) = bronze_produtos db1)
  /\ (fst (run E env db) = Success ->
      forall db0, run E env db0 = run E env db).
Proof.
  split.
  { unfold bronze_stage. destruct (listdir env); [| reflexivity].
    cbn. rewrite ingest_concat. reflexivity. }
  split; [intros; apply ingest_concat |].
  split; [intros; apply silver_stage_bronze |].
  split; [intros; apply gold_stage_bronze |].
  unfold run, bronze_stage.
  destruct (listdir env) as [entries |]; cbn [and_then]; [| discriminate].
  set (bronze := ingest (csv_files entries) []).
  intros Hok db0. revert Hok.
  unfold silver_stage. cbn [bronze_produtos set_bronze].
  destruct (astype _) as [typed |]; cbn [and_then fst]; [| discriminate].
  destruct (insert_silver _ typed) as [inserted |]; cbn [and_then fst];
    [| discriminate].
  intros _. reflexivity.
Qed.

(** ** C6: a file that raises is skipped *)

(** C6: a file on which the body of the [try] raises is skipped: the
    loader still ends normally, the whole run ends as it would without
    the file, with the same outcome and the same four tables, and every
    row of every file that loads is in the raw table. *)
Theorem malformed_file_is_skipped
  (E : engine) (env : environment) (db : database)
  (pre post : list landing_file) (bad : landing_file) :
  listdir env = Some (pre ++ bad :: post) ->
  load_file bad = None ->
  fst (bronze_stage env db) = Success
  /\ run E env db
     = run E {| listdir := Some (pre ++ post); silver_now := silver_now env |} db
  /\ forall f new_rows r,
       In f (csv_files (pre ++ post)) -> load_file f = Some new_rows ->
       In r new_rows ->
       exists bronze,
         bronze_produtos (snd (bronze_stage env db)) = Some bronze /\ In r bronze.
Proof.
  intros Hl Hbad.
  rewrite (bronze_stage_listed env db _ Hl).
  split; [reflexivity |].
  split.
  { unfold run. rewrite (bronze_stage_listed env db _ Hl).
    rewrite (bronze_stage_listed
               {| listdir := Some (pre ++ post); silver_now := silver_now env |}
               db (pre ++ post) eq_refl).
    rewrite (ingest_skips pre bad post [] Hbad). reflexivity. }
  intros f new_rows r Hf Hload Hr.
  eexists. split; [reflexivity |].
  rewrite (ingest_skips pre bad post [] Hbad), ingest_concat. cbn [app].
  apply in_concat. exists new_rows. split; [| assumption].
  apply in_map_iff. exists f. split; [| assumption].
  unfold loaded. rewrite Hload. reflexivity.
Qed.

Lemma malformed_file_is_skipped_witness :
  fst (bronze_stage (landing [good_file; short_file; newer_file] clock_0910) empty_database)
  = Success
  /\ run fifo_engine (landing [good_file; short_file; newer_file] clock_0910) empty_database
     = run fifo_engine (landing [good_file; newer_file] clock_0910) empty_database
  /\ fst (run fifo_engine (landing [good_file; short_file; newer_file] clock_0910)
              empty_database) = Success
  /\ option_map (@List.length raw_row)
       (bronze_produtos
          (snd (run fifo_engine (landing [good_file; short_file; newer_file] clock_0910)
                    empty_database))) = Some 3%nat.
Proof.
  destruct (malformed_file_is_skipped fifo_engine
              (landing [good_file; short_file; newer_file] clock_0910)
              empty_database [good_file] [newer_file] short_file
              eq_refl eq_refl) as (H1 & H2 & _).
  split; [exact H1 |]. split; [exact H2 |]. split; reflexivity.
Defined.

(** ** C7: what the loader checks of a file's columns *)

(** C7, as stated, fails: [INSERT INTO ... SELECT * FROM df] matches
    columns by position and nothing compares their names with the schema;
    a file of five columns named [a] to [e] is loaded. *)
Lemma renamed_columns_are_loaded :
  option_map columns (read_csv renamed_file) <> Some SCHEMA
  /\ ingest (csv_files [renamed_file]) []
     = [product "3" "nib" "c1" "7" "2" clock_0706 "e.csv"].
Proof. split; [vm_compute; discriminate | reflexivity]. Qed.

(** C7 (amended): a file whose frame, once [ingest_time] and [file_name]
    are set, does not have exactly seven columns is an error for that file
    only: its insert is refused, none of its rows are appended and the
    other files load as they would without it.  For a file that does not
    use the two metadata names this is any file with more or fewer than
    five columns.  The names of the columns are not compared with the
    schema. *)
Theorem wrong_column_count_skips_file
  (f : landing_file) (df : dataframe) (pre post : list landing_file)
  (bronze : list raw_row) :
  read_csv f = Some df ->
  List.length (columns (add_metadata (file f) (strftime (now f)) df)) <> 7%nat ->
  load_file f = None
  /\ ingest (csv_files (pre ++ f :: post)) bronze
     = ingest (csv_files (pre ++ post)) bronze
  /\ (~ In "ingest_time"%string (columns df) ->
      ~ In "file_name"%string (columns df) ->
      List.length (columns df) <> 5%nat).
Proof.
  intros Hread Hn.
  assert (Hload : load_file f = None).
  { unfold load_file, insert_bronze. rewrite Hread. cbn [bind].
    apply Nat.eqb_neq in Hn. rewrite Hn. reflexivity. }
  split; [assumption |].
  split; [apply ingest_skips; assumption |].
  intros H1 H2 H5. apply Hn.
  rewrite add_metadata_plain by assumption. cbn [columns].
  rewrite length_app, H5. reflexivity.
Qed.

Lemma wrong_column_count_skips_file_witness :
  load_file short_file = None
  /\ ingest (csv_files ([good_file] ++ short_file :: [newer_file])) []
     = ingest (csv_files ([good_file] ++ [newer_file])) []
  /\ (~ In "ingest_time"%string ["NATBR"; "MAKTX"; "WERKS"; "MAINS"]%string ->
      ~ In "file_name"%string ["NATBR"; "MAKTX"; "WERKS"; "MAINS"]%string ->
      4%nat <> 5%nat).
Proof.
  apply (wrong_column_count_skips_file short_file
           {| columns := ["NATBR"; "MAKTX"; "WERKS"; "MAINS"]%string;
              rows := [[Some "3"; Some "nib"; Some "c1"; Some "7"]]%string |}
           [good_file] [newer_file] []).
  - reflexivity.
  - vm_compute. discriminate.
Defined.

(** ** C9: empty input *)

Lemma scan_nil {A} (scan : list A -> list A) :
  (forall t, Permutation (scan t) t) -> scan [] = [].
Proof.
  intros H. apply Permutation_nil. apply Permutation_sym. apply H.
Qed.

(** C9: when the landing directory lists no CSV file, or no raw row passes
    the cutoff, the run succeeds and writes empty current-state, fact and
    dimension tables; with no CSV file the raw table is recreated empty. *)
Theorem empty_input_succeeds
  (E : engine) (env : environment) (db : database)
  (entries : list landing_file) :
  listdir env = Some entries ->
  csv_files entries = [] \/ filter recent (ingest (csv_files entries) []) = [] ->
  fst (run E env db) = Success
  /\ silver_produtos (snd (run E env db)) = Some []
  /\ gold_produtos_fat (snd (run E env db)) = Some []
  /\ gold_produtos_dim (snd (run E env db)) = Some []
  /\ (csv_files entries = [] -> bronze_produtos (snd (run E env db)) = Some []).
Proof.
  intros Hl Hempty.
  assert (Hf : filter recent (scan_bronze E (ingest (csv_files entries) [])) = []).
  { apply (filter_nil_Permutation recent (ingest (csv_files entries) []));
      [apply Permutation_sym, scan_bronze_perm |].
    destruct Hempty as [-> | H]; [reflexivity | assumption]. }
  unfold run. rewrite (bronze_stage_listed env db _ Hl). cbn [and_then].
  unfold silver_stage. cbn [bronze_produtos set_bronze].
  unfold silver_query, ranked. rewrite Hf. cbn [rank filter map astype traverse].
  cbn [insert_silver traverse and_then].
  unfold gold_stage. cbn [silver_produtos set_silver].
  rewrite (scan_nil _ (scan_silver_fat_perm E)), (scan_nil _ (scan_silver_dim_perm E)).
  cbn. repeat split. intros ->. reflexivity.
Qed.

Lemma empty_input_succeeds_witness :
  fst (run fifo_engine (landing [notes_file; stale_file] clock_2024)
           (with_bronze [old_row])) = Success
  /\ silver_produtos (snd (run fifo_engine (landing [notes_file; stale_file] clock_2024)
                                (with_bronze [old_row]))) = Some []
  /\ gold_produtos_fat (snd (run fifo_engine (landing [notes_file; stale_file] clock_2024)
                                  (with_bronze [old_row]))) = Some []
  /\ gold_produtos_dim (snd (run fifo_engine (landing [notes_file; stale_file] clock_2024)
                                  (with_bronze [old_row]))) = Some []
  /\ (csv_files [notes_file; stale_file] = [] ->
      bronze_produtos (snd (run fifo_engine (landing [notes_file; stale_file] clock_2024)
                                (with_bronze [old_row]))) = Some []).
Proof.
  apply (empty_input_succeeds fifo_engine
           (landing [notes_file; stale_file] clock_2024) (with_bronze [old_row])
           [notes_file; stale_file]).
  - reflexivity.
  - right. vm_compute. reflexivity.
Defined.

(** ** C10: one ingestion timestamp per file *)




Lemma raw_table_reset_then_append_only_witness :
  bronze_produtos
    (snd (bronze_stage (landing [good_file; newer_file] clock_0910) (with_bronze [old_row])))
  = Some (List.concat (map loaded [good_file; newer_file]))
  /\ forall db0,
       run fifo_engine (landing [good_file; newer_file] clock_0910) db0
       = run fifo_engine (landing [good_file; newer_file] clock_0910) (with_bronze [old_row]).
Proof.
  destruct (raw_table_reset_then_append_only fifo_engine
              (landing [good_file; newer_file] clock_0910) (with_bronze [old_row]))
    as (H1 & _ & _ & _ & H5).
  split; [exact H1 |]. apply H5. reflexivity.
Defined.

(** ** Worked examples *)

Example astype_int64_examples :
  astype_int64 (Some " 42 "%string) = Some 42
  /\ astype_int64 (Some "-7"%string) = Some (-7)
  /\ astype_int64 (Some "01"%string) = Some 1
  /\ astype_int64 (Some "1_000"%string) = Some 1000
  /\ astype_int64 (Some "7.0"%string) = None
  /\ astype_int64 (Some "abc"%string) = None
  /\ astype_int64 (Some "9223372036854775808"%string) = None
  /\ astype_int64 None = None.
Proof. vm_compute. repeat split. Qed.

Example astype_float32_examples :
  astype_float32 (Some "10.5"%string) = Some (Some (S754_finite false 11010048 (-20)))
  /\ astype_float32 (Some "0.1"%string) = Some (Some (S754_finite false 13421773 (-27)))
  /\ astype_float32 (Some "1e39"%string) = Some (Some (S754_infinity false))
  /\ astype_float32 (Some "nan"%string) = Some None
  /\ astype_float32 None = Some None
  /\ astype_float32 (Some "abc"%string) = None.
Proof. vm_compute. repeat split. Qed.

Example strftime_example :
  strftime clock_0705 = "2025-04-09 07:05:59"%string
  /\ cast_timestamp "2025-04-09 07:05:59" = Some 1744182359000000
  /\ cast_timestamp "2025-02-30 00:00:00" = None.
Proof. vm_compute. repeat split. Qed.

Example loader_examples :
  load_file short_file = None
  /\ load_file wide_file = None
  /\ load_file unreadable_file = None
  /\ csv_files [notes_file; good_file] = [good_file]
  /\ List.length (ingest (csv_files [good_file; short_file; notes_file; newer_file]) [])
     = 3%nat.
Proof. vm_compute. repeat split. Qed.

(** Raw rows (key 1, T1) and (key 1, T2 > T1): the current-state table has
    one row for key 1, with the values of the T2 row. *)
Example latest_version_wins :
  option_map (map typed_of)
    (silver_produtos (snd (run fifo_engine (landing [good_file; newer_file] clock_0910)
                               empty_database)))
  = Some [ {| typed_id := 2; typed_prod_name := Some "ink"%string;
              typed_id_category := Some "c2"%string; typed_supplier := 8;
              typed_price := Some (S754_finite false 8388608 (-21)) |};
           {| typed_id := 1; typed_prod_name := Some "quill"%string;
              typed_id_category := Some "c1"%string; typed_supplier := 7;
              typed_price := Some (S754_finite false 14680064 (-22)) |} ].
Proof. vm_compute. reflexivity. Qed.

(** An empty landing directory: every table ends empty and the run
    succeeds. *)
Example empty_directory_run :
  run fifo_engine (landing [] clock_0910) empty_database
  = (Success, {| bronze_produtos := Some []; silver_produtos := Some [];
                 gold_produtos_fat := Some []; gold_produtos_dim := Some [] |}).
Proof. reflexivity. Qed.

(** * Further properties of the script *)

(** ** The loop over the files and what it reports *)

Lemma set_column_rows_length df name v :
  List.length (rows (set_column df name v)) = List.length (rows df).
Proof.
  unfold set_column. destruct (index_of name (columns df));
    cbn [rows]; apply length_map.
Qed.

Lemma add_metadata_rows_length f_name stamp df :
  List.length (rows (add_metadata f_name stamp df)) = List.length (rows df).
Proof. unfold add_metadata. rewrite !set_column_rows_length. reflexivity. Qed.

Lemma processed_loaded f :
  match processed f with
  | Some n => n
  | None => O
  end = List.length (loaded f).
Proof.
  unfold processed, loaded, load_file.
  destruct (read_csv f) as [df |]; cbn [bind]; [| reflexivity].
  destruct (insert_bronze _) as [rs |] eqn:Ei; cbn [bind]; [| reflexivity].
  unfold insert_bronze in Ei.
  destruct (_ =? 7)%nat; [| discriminate].
  symmetry. apply (traverse_length _ _ _ Ei).
Qed.

(** The insert of a file is all or nothing, and the loop reports what was
    inserted: either the file appends one raw row for each line of its
    frame and the loop reports that number of records, or the body raised,
    nothing is appended and nothing but the error is reported. *)
Theorem file_appends_all_lines_or_none (f : landing_file) :
  (load_file f = None /\ processed f = None /\ loaded f = [])
  \/ (exists df new_rows,
        read_csv f = Some df
        /\ load_file f = Some new_rows
        /\ List.length new_rows = List.length (rows df)
        /\ processed f = Some (List.length new_rows)
        /\ loaded f = new_rows).
Proof.
  unfold processed, loaded, load_file.
  destruct (read_csv f) as [df |]; cbn [bind]; [| left; auto].
  destruct (insert_bronze _) as [rs |] eqn:Ei; cbn [bind]; [| left; auto].
  right. exists df, rs.
  assert (Hlen : List.length rs = List.length (rows df)).
  { unfold insert_bronze in Ei. destruct (_ =? 7)%nat; [| discriminate].
    rewrite (traverse_length _ _ _ Ei). apply add_metadata_rows_length. }
  repeat split; try reflexivity; try assumption.
  rewrite add_metadata_rows_length. congruence.
Qed.

Lemma list_sum_length_concat {A} (ls : list (list A)) :
  List.length (List.concat ls) = list_sum (map (@List.length A) ls).
Proof.
  induction ls as [| l ls IH]; simpl; [reflexivity |].
  rewrite length_app, IH. reflexivity.
Qed.

(** The total the script reads back from the raw table after the loop
    (line 88) is the sum of the record counts it reported file by file. *)
Theorem bronze_total_is_sum_of_reports
  (env : environment) (db : database) (entries : list landing_file) :
  listdir env = Some entries ->
  count_rows (bronze_produtos (snd (bronze_stage env db)))
  = Some (logged_total (ingest_log (csv_files entries))).
Proof.
  intros Hl. rewrite (bronze_stage_listed env db entries Hl).
  cbn [snd bronze_produtos set_bronze count_rows option_map]. f_equal.
  rewrite ingest_concat. cbn [app]. rewrite list_sum_length_concat.
  unfold logged_total, ingest_log. rewrite !map_map. f_equal.
  apply map_ext. intros f. cbn [snd]. symmetry. apply processed_loaded.
Qed.

Lemma bronze_total_is_sum_of_reports_witness :
  count_rows (bronze_produtos
    (snd (bronze_stage (landing [good_file; short_file; notes_file; newer_file] clock_0910)
                       (with_bronze [old_row]))))
  = Some (logged_total (ingest_log (csv_files [good_file; short_file; notes_file; newer_file])))
  /\ ingest_log (csv_files [good_file; short_file; notes_file; newer_file])
     = [("a.csv"%string, Some 2%nat); ("c.csv"%string, None); ("b.csv"%string, Some 1%nat)].
Proof.
  split.
  - apply (bronze_total_is_sum_of_reports
             (landing [good_file; short_file; notes_file; newer_file] clock_0910)).
    reflexivity.
  - vm_compute. reflexivity.
Defined.

(** Every row of the raw table after the loader comes from a CSV entry
    of the listing that loaded, and, when that file does not use the
    metadata names for its own columns, carries the file's name. *)
Theorem raw_rows_come_from_listed_csv_files
  (env : environment) (db : database) (entries : list landing_file)
  (bronze : list raw_row) (r : raw_row) :
  listdir env = Some entries ->
  bronze_produtos (snd (bronze_stage env db)) = Some bronze ->
  In r bronze ->
  exists f new_rows,
    In f entries /\ endswith (file f) EXT = true
    /\ load_file f = Some new_rows /\ In r new_rows
    /\ (forall df, read_csv f = Some df ->
          ~ In "ingest_time"%string (columns df) ->
          ~ In "file_name"%string (columns df) ->
          file_name r = Some (file f)).
Proof.
  intros Hl Hb Hr. rewrite (bronze_stage_listed env db entries Hl) in Hb.
  cbn in Hb. injection Hb as <-.
  rewrite ingest_concat in Hr. cbn [app] in Hr.
  apply in_concat in Hr. destruct Hr as (rs & Hrs & Hr).
  apply in_map_iff in Hrs. destruct Hrs as (f & <- & Hf).
  unfold csv_files in Hf. apply filter_In in Hf. destruct Hf as [Hf Hext].
  unfold loaded in Hr. destruct (load_file f) as [new_rows |] eqn:Hload;
    [| destruct Hr].
  exists f, new_rows. repeat split; try assumption.
  intros df Hread H1 H2.
  apply (load_file_plain f df new_rows r Hread H1 H2 Hload Hr).
Qed.

Lemma raw_rows_come_from_listed_csv_files_witness :
  exists f new_rows,
    In f [notes_file; good_file] /\ endswith (file f) EXT = true
    /\ load_file f = Some new_rows
    /\ In (product "2" "ink" "c2" "8" "4" clock_0705 "a.csv") new_rows
    /\ (forall df, read_csv f = Some df ->
          ~ In "ingest_time"%string (columns df) ->
          ~ In "file_name"%string (columns df) ->
          file_name (product "2" "ink" "c2" "8" "4" clock_0705 "a.csv")
          = Some (file f)).
Proof.
  apply (raw_rows_come_from_listed_csv_files
           (landing [notes_file; good_file] clock_0910) empty_database
           [notes_file; good_file]
           [product "1" "pen" "c1" "7" "1.5" clock_0705 "a.csv";
            product "2" "ink" "c2" "8" "4" clock_0705 "a.csv"]).
  - reflexivity.
  - vm_compute. reflexivity.
  - right. left. reflexivity.
Defined.

(** ** Which directory entries are loaded *)

Lemma starts_with_app p s :
  starts_with p s = true <-> exists rest, s = p ++ rest.
Proof.
  revert s. induction p as [| a p IH]; intros s; simpl.
  - split; [intros _; exists s; reflexivity | reflexivity].
  - destruct s as [| b s].
    + split; [discriminate | intros (rest & H); discriminate].
    + rewrite andb_true_iff, Ascii.eqb_eq, IH. split.
      * intros [-> (rest & ->)]. exists rest. reflexivity.
      * intros (rest & H). injection H as -> ->. split; [reflexivity | eauto].
Qed.

Lemma chars_append (a b : string) : chars (a ++ b)%string = chars a ++ chars b.
Proof.
  unfold chars. induction a as [| c a IH]; simpl; [reflexivity |].
  rewrite IH. reflexivity.
Qed.

Lemma chars_inj (a b : string) : chars a = chars b -> a = b.
Proof.
  unfold chars. intros H.
  rewrite <- (string_of_list_ascii_of_string a), <- (string_of_list_ascii_of_string b).
  rewrite H. reflexivity.
Qed.

Lemma endswith_append (s suffix : string) :
  endswith s suffix = true <-> exists stem, s = (stem ++ suffix)%string.
Proof.
  unfold endswith. rewrite starts_with_app. split.
  - intros (rest & H). exists (string_of_list_ascii (rev rest)).
    apply chars_inj. rewrite chars_append. unfold chars at 2.
    rewrite list_ascii_of_string_of_list_ascii.
    rewrite <- (rev_involutive (chars s)), H, rev_app_distr, rev_involutive.
    reflexivity.
  - intros (stem & ->). exists (rev (chars stem)).
    rewrite chars_append, rev_app_distr. reflexivity.
Qed.

(** The loop runs over exactly the directory entries whose name is some
    text followed by [.csv], in the order of the listing; an entry under
    another name is never read, whatever it holds. *)
Theorem csv_files_are_the_csv_names (entries : list landing_file) :
  (forall f, In f (csv_files entries)
             <-> In f entries /\ exists stem, file f = (stem ++ ".csv")%string)
  /\ (forall pre f post,
        entries = pre ++ f :: post ->
        (forall stem, file f <> (stem ++ ".csv")%string) ->
        forall bronze,
          ingest (csv_files entries) bronze = ingest (csv_files (pre ++ post)) bronze)
  /\ (forall l1 l2, entries = l1 ++ l2 ->
        csv_files entries = csv_files l1 ++ csv_files l2).
Proof.
  split; [| split].
  - intros f. unfold csv_files. rewrite filter_In, endswith_append. reflexivity.
  - intros pre f post -> Hname bronze.
    rewrite !csv_files_app. f_equal. f_equal.
    unfold csv_files at 1. cbn [filter].
    destruct (endswith (file f) EXT) eqn:E; [| reflexivity].
    apply endswith_append in E. destruct E as (stem & E).
    exfalso. apply (Hname stem). exact E.
  - intros l1 l2 ->. apply csv_files_app.
Qed.

(** ** The ingestion timestamp, from the clock to the table *)



(** ** Clock readings and TIMESTAMP values keep the same order *)

Lemma year_start_step y : 0 <= y ->
  year_start (y + 1) - year_start y = 365 + (if is_leap (y + 1) then 1 else 0).
Proof.
  intros Hy. unfold year_start, is_leap.
  destruct ((y + 1) mod 4 =? 0) eqn:E4; destruct ((y + 1) mod 100 =? 0) eqn:E100;
  destruct ((y + 1) mod 400 =? 0) eqn:E400; simpl;
  rewrite ?Z.eqb_eq, ?Z.eqb_neq in *;
  Z.to_euclidean_division_equations; lia.
Qed.

Lemma leap_day_bounds y : 0 <= leap_day y <= 1.
Proof. unfold leap_day. destruct (is_leap y); lia. Qed.

Lemma year_start_step' y : 0 <= y ->
  year_start (y + 1) = year_start y + 365 + leap_day (y + 1).
Proof. intros H. pose proof (year_start_step y H). unfold leap_day. lia. Qed.

Lemma year_start_mono a b : 0 <= a -> a < b ->
  year_start a + 365 + leap_day (a + 1) <= year_start b.
Proof.
  intros Ha Hab.
  assert (H : forall n, 0 <= n ->
            year_start a + 365 + leap_day (a + 1) <= year_start (a + 1 + n)).
  { intros n Hn. pattern n. apply natlike_ind; [| | assumption].
    - rewrite Z.add_0_r, (year_start_step' a) by assumption. lia.
    - intros k Hk IH. replace (a + 1 + Z.succ k) with ((a + 1 + k) + 1) by lia.
      rewrite (year_start_step' (a + 1 + k)) by lia.
      pose proof (leap_day_bounds (a + 1 + k + 1)). lia. }
  replace b with (a + 1 + (b - a - 1)) by lia. apply H. lia.
Qed.

Lemma days_from_civil_year_start y m d :
  days_from_civil y m d
  = year_start (if m <=? 2 then y - 1 else y) + day_of_march_year m d - 719468.
Proof. unfold days_from_civil, year_start, day_of_march_year. lia. Qed.

Lemma days_in_month_cases y m :
  1 <= m <= 12 ->
  days_in_month y m
  = if m =? 2 then 28 + leap_day y
    else if (m =? 4) || (m =? 6) || (m =? 9) || (m =? 11) then 30 else 31.
Proof.
  intros _. unfold days_in_month, leap_day.
  destruct (m =? 2); [destruct (is_leap y); reflexivity | reflexivity].
Qed.

Ltac month_cases m :=
  let C := fresh "C" in
  assert (C : m = 1 \/ m = 2 \/ m = 3 \/ m = 4 \/ m = 5 \/ m = 6 \/ m = 7
              \/ m = 8 \/ m = 9 \/ m = 10 \/ m = 11 \/ m = 12) by lia;
  repeat (destruct C as [-> | C]); try subst m.

Ltac month_constants :=
  repeat match goal with
         | |- context [(153 * ((?m + 9) mod 12) + 2) / 5] =>
             let v := eval vm_compute in ((153 * ((m + 9) mod 12) + 2) / 5) in
             change ((153 * ((m + 9) mod 12) + 2) / 5) with v
         | |- context [?m <=? 2] =>
             let v := eval vm_compute in (m <=? 2) in
             change (m <=? 2) with v
         | H : context [?m =? ?n] |- _ =>
             let v := eval vm_compute in (m =? n) in
             change (m =? n) with v in H
         end;
  cbv iota in *; cbn [orb] in *; cbv iota in *.

Lemma days_from_civil_lt_same_year y m1 d1 m2 d2 :
  1 <= y -> 1 <= m1 <= 12 -> 1 <= d1 <= days_in_month y m1 ->
  1 <= m2 <= 12 -> 1 <= d2 <= days_in_month y m2 ->
  m1 < m2 \/ (m1 = m2 /\ d1 < d2) ->
  days_from_civil y m1 d1 < days_from_civil y m2 d2.
Proof.
  intros Hy Hm1 Hd1 Hm2 Hd2 Hlt.
  rewrite !days_from_civil_year_start.
  rewrite days_in_month_cases in Hd1, Hd2 by assumption.
  pose proof (leap_day_bounds y) as L.
  pose proof (year_start_step' (y - 1) ltac:(lia)) as S.
  replace (y - 1 + 1) with y in S by lia.
  unfold day_of_march_year.
  month_cases m1; month_cases m2; month_constants; lia.
Qed.

Lemma days_from_civil_lt_next_years y1 m1 d1 y2 m2 d2 :
  1 <= y1 -> 1 <= m1 <= 12 -> 1 <= d1 <= days_in_month y1 m1 ->
  1 <= m2 <= 12 -> 1 <= d2 <= days_in_month y2 m2 ->
  y1 < y2 ->
  days_from_civil y1 m1 d1 < days_from_civil y2 m2 d2.
Proof.
  intros Hy1 Hm1 Hd1 Hm2 Hd2 Hlt.
  rewrite !days_from_civil_year_start.
  rewrite days_in_month_cases in Hd1, Hd2 by assumption.
  pose proof (leap_day_bounds y1) as L1. pose proof (leap_day_bounds y2) as L2.
  pose proof (leap_day_bounds (y1 + 1)) as L3.
  pose proof (year_start_step' (y1 - 1) ltac:(lia)) as S1.
  replace (y1 - 1 + 1) with y1 in S1 by lia.
  pose proof (year_start_step' (y2 - 1) ltac:(lia)) as S2.
  replace (y2 - 1 + 1) with y2 in S2 by lia.
  assert (M : y1 < y2 - 1 ->
              year_start y1 + 365 + leap_day (y1 + 1) <= year_start (y2 - 1))
    by (intros H; apply year_start_mono; lia).
  assert (E : y2 - 1 = y1 -> year_start (y2 - 1) = year_start y1)
    by (intros H; rewrite H; reflexivity).
  unfold day_of_march_year.
  month_cases m1; month_cases m2; month_constants; lia.
Qed.

Lemma valid_datetime_fields t :
  valid_datetime t = true ->
  1 <= year t /\ 1 <= month t <= 12 /\ 1 <= day t <= days_in_month (year t) (month t)
  /\ 0 <= seconds_of_day t < 86400.
Proof.
  unfold valid_datetime, valid_fields, seconds_of_day.
  rewrite !andb_true_iff, !Z.leb_le, !Z.ltb_lt. lia.
Qed.

Lemma timestamp_of_datetime_seconds t :
  timestamp_of_datetime t
  = (days_from_civil (year t) (month t) (day t) * 86400 + seconds_of_day t) * 1000000.
Proof. unfold timestamp_of_datetime, timestamp_of_fields, seconds_of_day. lia. Qed.

Lemma earlier_timestamp_lt (t1 t2 : datetime) :
  valid_datetime t1 = true -> valid_datetime t2 = true ->
  earlier t1 t2 = true ->
  timestamp_of_datetime t1 < timestamp_of_datetime t2.
Proof.
  intros H1 H2.
  destruct (valid_datetime_fields t1 H1) as (Hy1 & Hm1 & Hd1 & Hs1).
  destruct (valid_datetime_fields t2 H2) as (Hy2 & Hm2 & Hd2 & Hs2).
  rewrite !timestamp_of_datetime_seconds. unfold earlier.
  rewrite !orb_true_iff, !andb_true_iff, !orb_true_iff, !andb_true_iff,
    !orb_true_iff, !andb_true_iff, !Z.ltb_lt, !Z.eqb_eq.
  intros [Hy | [Hy [Hm | [Hm [Hd | [Hd Hs]]]]]].
  - pose proof (days_from_civil_lt_next_years _ _ _ _ _ _ Hy1 Hm1 Hd1 Hm2 Hd2 Hy).
    lia.
  - rewrite <- Hy in Hd2 |- *.
    pose proof (days_from_civil_lt_same_year _ _ _ _ _ Hy1 Hm1 Hd1 Hm2 Hd2
                  (or_introl Hm)). lia.
  - rewrite <- Hy in Hd2 |- *.
    pose proof (days_from_civil_lt_same_year _ _ _ _ _ Hy1 Hm1 Hd1 Hm2 Hd2
                  (or_intror (conj Hm Hd))). lia.
  - rewrite Hy, Hm, Hd. lia.
Qed.

(** The TIMESTAMP values the table holds are ordered as the clock
    readings they come from, to the second: an earlier reading gives a
    strictly smaller value, and two readings of which neither is earlier
    give the same value. *)
Theorem timestamps_follow_the_clock (t1 t2 : datetime) :
  valid_datetime t1 = true -> valid_datetime t2 = true ->
  (earlier t1 t2 = true -> timestamp_of_datetime t1 < timestamp_of_datetime t2)
  /\ (earlier t1 t2 = false -> earlier t2 t1 = false ->
      timestamp_of_datetime t1 = timestamp_of_datetime t2).
Proof.
  intros H1 H2. split; [apply earlier_timestamp_lt; assumption |].
  destruct (valid_datetime_fields t1 H1) as (Hy1 & Hm1 & Hd1 & Hs1).
  destruct (valid_datetime_fields t2 H2) as (Hy2 & Hm2 & Hd2 & Hs2).
  rewrite !timestamp_of_datetime_seconds. unfold earlier.
  rewrite !orb_false_iff, !andb_false_iff, !orb_false_iff, !andb_false_iff,
    !orb_false_iff, !andb_false_iff, !Z.ltb_ge, !Z.eqb_neq.
  intros A B.
  assert (Ey : year t1 = year t2) by lia.
  assert (Em : month t1 = month t2) by lia.
  assert (Ed : day t1 = day t2) by lia.
  assert (Es : seconds_of_day t1 = seconds_of_day t2) by lia.
  rewrite Ey, Em, Ed, Es. reflexivity.
Qed.

Lemma timestamps_follow_the_clock_witness :
  (earlier clock_0705 clock_0706 = true ->
   timestamp_of_datetime clock_0705 < timestamp_of_datetime clock_0706)
  /\ (earlier clock_0705 clock_0706 = false -> earlier clock_0706 clock_0705 = false ->
      timestamp_of_datetime clock_0705 = timestamp_of_datetime clock_0706).
Proof. apply (timestamps_follow_the_clock clock_0705 clock_0706); reflexivity. Defined.

(** Of two files that hold the same key, the one loaded at an earlier
    second never provides the current row: a row of the earlier file is
    not selected once a row of the later file for that key is in the raw
    table. *)
Theorem later_file_wins
  (f1 f2 : landing_file) (df1 df2 : dataframe) (rows1 rows2 : list raw_row)
  (r1 r2 : raw_row) (scan : list raw_row) :
  read_csv f1 = Some df1 -> read_csv f2 = Some df2 ->
  ~ In "ingest_time"%string (columns df1) -> ~ In "file_name"%string (columns df1) ->
  ~ In "ingest_time"%string (columns df2) -> ~ In "file_name"%string (columns df2) ->
  valid_datetime (now f1) = true -> valid_datetime (now f2) = true ->
  earlier (now f1) (now f2) = true ->
  load_file f1 = Some rows1 -> load_file f2 = Some rows2 ->
  In r1 rows1 -> In r2 rows2 -> NATBR r1 = NATBR r2 ->
  In r2 scan ->
  ~ In r1 (selected scan).
Proof.
  intros Hread1 Hread2 Ha1 Hb1 Ha2 Hb2 Hv1 Hv2 Hearly Hl1 Hl2 Hr1 Hr2 Hk Hscan Hsel.
  destruct (load_file_plain f1 df1 rows1 r1 Hread1 Ha1 Hb1 Hl1 Hr1) as (Ht1 & _ & _).
  destruct (load_file_plain f2 df2 rows2 r2 Hread2 Ha2 Hb2 Hl2 Hr2) as (Ht2 & _ & _).
  unfold cast_timestamp_cell in Ht1, Ht2.
  rewrite cast_timestamp_strftime in Ht1, Ht2 by assumption.
  injection Ht1 as Ht1. injection Ht2 as Ht2.
  pose proof (earlier_timestamp_lt _ _ Hv1 Hv2 Hearly) as Hlt.
  destruct (selected_max scan r1 Hsel) as [Hin Hmax].
  apply filter_In in Hin. destruct Hin as [_ Hrec].
  unfold recent in Hrec. rewrite <- Ht1 in Hrec. apply Z.leb_le in Hrec.
  assert (Hin2 : In r2 (filter recent scan)).
  { apply filter_In. split; [assumption |].
    unfold recent. rewrite <- Ht2. apply Z.leb_le. lia. }
  specialize (Hmax r2 Hin2 (eq_sym Hk)).
  rewrite <- Ht1, <- Ht2 in Hmax. unfold ts_le, ts_lt in Hmax.
  apply negb_true_iff in Hmax. apply Z.ltb_ge in Hmax. lia.
Qed.

Lemma later_file_wins_witness :
  ~ In (product "1" "pen" "c1" "7" "1.5" clock_0705 "a.csv") (selected two_versions).
Proof.
  apply (later_file_wins good_file newer_file
           {| columns := SCHEMA;
              rows := map (map Some)
                [["1"; "pen"; "c1"; "7"; "1.5"]; ["2"; "ink"; "c2"; "8"; "4"]]%string |}
           {| columns := SCHEMA;
              rows := map (map Some) [["1"; "quill"; "c1"; "7"; "3.5"]]%string |}
           [product "1" "pen" "c1" "7" "1.5" clock_0705 "a.csv";
            product "2" "ink" "c2" "8" "4" clock_0705 "a.csv"]
           [product "1" "quill" "c1" "7" "3.5" clock_0706 "b.csv"]
           _ (product "1" "quill" "c1" "7" "3.5" clock_0706 "b.csv")).
  - reflexivity.
  - reflexivity.
  - vm_compute. intuition discriminate.
  - vm_compute. intuition discriminate.
  - vm_compute. intuition discriminate.
  - vm_compute. intuition discriminate.
  - reflexivity.
  - reflexivity.
  - reflexivity.
  - vm_compute. reflexivity.
  - vm_compute. reflexivity.
  - left. reflexivity.
  - left. reflexivity.
  - reflexivity.
  - right. right. left. reflexivity.
Defined.

(** ** The cutoff of the silver query *)

(** A key whose raw rows are all older than the cutoff (or carry no
    timestamp) has no row in the selection, and every selected row was
    ingested at or after the cutoff. *)
Theorem cutoff_drops_stale_keys (scan : list raw_row) (k : cell) :
  (forall r, In r scan -> NATBR r = k -> recent r = false) ->
  count_key k (selected scan) = 0%nat
  /\ forall r, In r (selected scan) ->
       NATBR r <> k /\ exists t, ingest_time r = Some t /\ cutoff <= t.
Proof.
  intros Hstale.
  assert (Hsel : forall r, In r (selected scan) ->
            NATBR r <> k /\ exists t, ingest_time r = Some t /\ cutoff <= t).
  { intros r Hr. destruct (selected_max scan r Hr) as [Hin _].
    apply filter_In in Hin. destruct Hin as [Hin Hrec]. split.
    - intros Hk. rewrite (Hstale r Hin Hk) in Hrec. discriminate.
    - unfold recent in Hrec. destruct (ingest_time r) as [t |]; [| discriminate].
      exists t. split; [reflexivity | apply Z.leb_le; assumption]. }
  split; [| exact Hsel].
  destruct (count_key k (selected scan)) as [| n] eqn:E; [reflexivity |].
  destruct (count_key_pos k (selected scan)) as (r & Hr & Hk); [lia |].
  destruct (Hsel r Hr) as [Hne _]. contradiction.
Qed.

Lemma cutoff_drops_stale_keys_witness :
  count_key (Some "1"%string)
    (selected [product "1" "pen" "c1" "7" "1.5" clock_2024 "s.csv";
               product "2" "ink" "c2" "8" "4" clock_0705 "a.csv"]) = 0%nat
  /\ forall r,
       In r (selected [product "1" "pen" "c1" "7" "1.5" clock_2024 "s.csv";
                       product "2" "ink" "c2" "8" "4" clock_0705 "a.csv"]) ->
       NATBR r <> Some "1"%string /\ exists t, ingest_time r = Some t /\ cutoff <= t.
Proof.
  apply (cutoff_drops_stale_keys
           [product "1" "pen" "c1" "7" "1.5" clock_2024 "s.csv";
            product "2" "ink" "c2" "8" "4" clock_0705 "a.csv"] (Some "1"%string)).
  intros r [<- | [<- | []]] Hk; [reflexivity | discriminate Hk].
Defined.

(** ** How many rows the current-state table holds *)

Lemma rank_fst (rest : list raw_row) : forall b, map fst (rank b rest) = rest.
Proof.
  induction rest as [| r tl IH]; intros b; simpl; [reflexivity |].
  rewrite IH. reflexivity.
Qed.

Lemma selected_length scan :
  (List.length (selected scan) <= List.length (filter recent scan))%nat.
Proof.
  unfold selected, silver_query, ranked. rewrite length_map.
  etransitivity; [apply filter_length_le |].
  rewrite <- (length_map fst), rank_fst. reflexivity.
Qed.

Lemma selected_keys_Permutation scan bronze :
  Permutation scan bronze ->
  Permutation (map NATBR (selected scan)) (distinct_keys bronze).
Proof.
  intros HP. apply NoDup_Permutation.
  - apply selected_NoDup.
  - apply NoDup_nodup.
  - intros k. unfold distinct_keys. rewrite nodup_In. split.
    + intros H. apply in_map_iff in H. destruct H as (r & <- & Hr).
      apply in_map. apply (recent_Permutation scan bronze r HP).
      apply selected_max. assumption.
    + intros H. destruct (selected_covers scan k) as (r & Hr & Hk).
      * revert H. apply Permutation_in, Permutation_map, filter_Permutation.
        apply Permutation_sym. assumption.
      * apply in_map_iff. eauto.
Qed.

(** After a successful silver stage the current-state table holds exactly
    as many rows as there are distinct key texts among the raw rows at or
    after the cutoff (the "unique records" the script logs), which is no
    more than the raw table holds. *)
Theorem current_state_counts_distinct_keys
  (E : engine) (clock : datetime) (db db' : database) (bronze : list raw_row) :
  bronze_produtos db = Some bronze ->
  silver_stage E clock db = (Success, db') ->
  count_rows (silver_produtos db') = Some (List.length (distinct_keys bronze))
  /\ (List.length (distinct_keys bronze) <= List.length bronze)%nat.
Proof.
  intros Hb Hs.
  destruct (silver_stage_Success _ _ _ _ Hs) as (bronze' & typed & t & Hb' & Ha & ->).
  rewrite Hb in Hb'. injection Hb' as <-.
  pose proof (scan_bronze_perm E bronze) as HP.
  pose proof (selected_keys_Permutation _ _ HP) as HK.
  apply Permutation_length in HK. rewrite length_map in HK.
  split.
  - cbn. f_equal. rewrite length_map, (traverse_length _ _ _ Ha), length_map.
    exact HK.
  - rewrite <- HK. etransitivity; [apply selected_length |].
    etransitivity; [apply filter_length_le |].
    rewrite (Permutation_length HP). reflexivity.
Qed.

Lemma current_state_counts_distinct_keys_witness :
  count_rows (silver_produtos
    (snd (silver_stage lifo_engine clock_0910 (with_bronze two_versions))))
  = Some (List.length (distinct_keys two_versions))
  /\ (List.length (distinct_keys two_versions) <= List.length two_versions)%nat.
Proof.
  apply (current_state_counts_distinct_keys lifo_engine clock_0910
           (with_bronze two_versions) _ two_versions).
  - reflexivity.
  - vm_compute. reflexivity.
Defined.

(** ** [ROW_NUMBER] ranks each partition *)

Lemma filter_length_mono {A} (p q : A -> bool) l :
  (forall x, In x l -> p x = true -> q x = true) ->
  (List.length (filter p l) <= List.length (filter q l))%nat.
Proof.
  induction l as [| x l IH]; intros H; simpl; [lia |].
  assert (IH' : (List.length (filter p l) <= List.length (filter q l))%nat)
    by (apply IH; intros y Hy; apply H; right; assumption).
  destruct (p x) eqn:Ep.
  - rewrite (H x (or_introl eq_refl) Ep). simpl. lia.
  - destruct (q x); simpl; lia.
Qed.

Lemma rank_nth (rest : list raw_row) : forall b i r n,
  nth_error (rank b rest) i = Some (r, n) ->
  exists l1 l2, rest = l1 ++ r :: l2 /\ List.length l1 = i
                /\ n = row_number (b ++ l1) r l2.
Proof.
  induction rest as [| x tl IH]; intros b i r n H.
  - destruct i; discriminate.
  - destruct i as [| i]; simpl in H.
    + injection H as -> <-. exists [], tl. rewrite app_nil_r. auto.
    + destruct (IH _ _ _ _ H) as (l1 & l2 & -> & <- & ->).
      exists (x :: l1), l2. rewrite <- app_assoc. auto.
Qed.

Lemma split_twice {A} (l1 l2 l1' l2' : list A) (x y : A) :
  l1 ++ x :: l2 = l1' ++ y :: l2' ->
  (List.length l1 < List.length l1')%nat ->
  exists m, l1' = l1 ++ x :: m /\ l2 = m ++ y :: l2'.
Proof.
  revert l1'. induction l1 as [| a l1 IH]; intros l1' H Hlen.
  - destruct l1' as [| b l1']; [simpl in Hlen; lia |].
    simpl in H. injection H as -> ->. exists l1'. auto.
  - destruct l1' as [| b l1']; [simpl in Hlen; lia |].
    simpl in H. injection H as -> H. simpl in Hlen.
    destruct (IH l1' H ltac:(lia)) as (m & -> & ->). exists m. auto.
Qed.

(** The row numbers of the CTE rank each partition by recency: of two
    rows of one key, the one that is strictly more recent has the smaller
    number, of two equally recent ones the one scanned first has, so no
    two rows of a key share a number; and every number lies between 1 and
    the size of the partition. *)
Theorem row_numbers_rank_each_partition
  (scan : list raw_row) (i j : nat) (ri rj : raw_row) (ni nj : nat) :
  nth_error (ranked scan) i = Some (ri, ni) ->
  nth_error (ranked scan) j = Some (rj, nj) ->
  (i < j)%nat ->
  NATBR ri = NATBR rj ->
  (ts_le (ingest_time rj) (ingest_time ri) = true -> (ni < nj)%nat)
  /\ (ts_lt (ingest_time ri) (ingest_time rj) = true -> (nj < ni)%nat)
  /\ ni <> nj
  /\ (1 <= ni <= count_key (NATBR ri) (filter recent scan))%nat
  /\ (1 <= nj <= count_key (NATBR ri) (filter recent scan))%nat.
Proof.
  unfold ranked. intros Hi Hj Hij Hk.
  destruct (rank_nth _ _ _ _ _ Hi) as (l1 & l2 & Hsplit & Hlen & ->).
  destruct (rank_nth _ _ _ _ _ Hj) as (l1' & l2' & Hsplit' & Hlen' & ->).
  cbn [app].
  destruct (split_twice l1 l2 l1' l2' ri rj) as (m & -> & ->);
    [congruence | lia |].
  clear Hsplit' Hlen Hlen' Hi Hj Hij.
  assert (Hsame : forall x, same_key rj x = same_key ri x)
    by (intros x; unfold same_key; rewrite Hk; reflexivity).
  assert (Hii : same_key rj ri = true)
    by (unfold same_key; rewrite Hk; apply cell_eqb_refl).
  assert (Hjj : same_key ri rj = true)
    by (unfold same_key; rewrite Hk; apply cell_eqb_refl).
  assert (Hfirst : ts_le (ingest_time rj) (ingest_time ri) = true ->
            (row_number l1 ri (m ++ rj :: l2')
             < row_number (l1 ++ ri :: m) rj l2')%nat).
  { intros Hle. unfold row_number.
    rewrite !filter_app, !length_app. cbn [filter].
    rewrite Hii, Hle, Hjj. cbn [andb].
    assert (Hno : ts_lt (ingest_time ri) (ingest_time rj) = false)
      by (unfold ts_le in Hle; apply negb_true_iff; exact Hle).
    rewrite Hno. cbn [List.length].
    pose proof (filter_length_mono
      (fun r' => same_key ri r' && ts_le (ingest_time ri) (ingest_time r'))
      (fun r' => same_key rj r' && ts_le (ingest_time rj) (ingest_time r')) l1) as A1.
    pose proof (filter_length_mono
      (fun r' => same_key ri r' && ts_lt (ingest_time ri) (ingest_time r'))
      (fun r' => same_key rj r' && ts_le (ingest_time rj) (ingest_time r')) m) as A2.
    pose proof (filter_length_mono
      (fun r' => same_key ri r' && ts_lt (ingest_time ri) (ingest_time r'))
      (fun r' => same_key rj r' && ts_lt (ingest_time rj) (ingest_time r')) l2') as A3.
    assert (B1 := A1 ltac:(intros x _ Hx; apply andb_true_iff in Hx;
      destruct Hx as [Hx1 Hx2]; rewrite Hsame, Hx1; cbn [andb];
      unfold ts_le; apply negb_true_iff;
      destruct (ts_lt (ingest_time x) (ingest_time rj)) eqn:Ex; [| reflexivity];
      pose proof (ts_lt_le_trans _ _ _ Ex Hle) as Hc;
      unfold ts_le in Hx2; rewrite Hc in Hx2; discriminate)).
    assert (B2 := A2 ltac:(intros x _ Hx; apply andb_true_iff in Hx;
      destruct Hx as [Hx1 Hx2]; rewrite Hsame, Hx1; cbn [andb];
      apply ts_lt_le; eapply ts_le_lt_trans; eassumption)).
    assert (B3 := A3 ltac:(intros x _ Hx; apply andb_true_iff in Hx;
      destruct Hx as [Hx1 Hx2]; rewrite Hsame, Hx1; cbn [andb];
      eapply ts_le_lt_trans; eassumption)).
    lia. }
  assert (Hsecond : ts_lt (ingest_time ri) (ingest_time rj) = true ->
            (row_number (l1 ++ ri :: m) rj l2'
             < row_number l1 ri (m ++ rj :: l2'))%nat).
  { intros Hlt. unfold row_number.
    rewrite !filter_app, !length_app. cbn [filter].
    rewrite Hii, Hjj, Hlt. cbn [andb].
    assert (Hno : ts_le (ingest_time rj) (ingest_time ri) = false)
      by (unfold ts_le; rewrite Hlt; reflexivity).
    rewrite Hno. cbn [List.length].
    pose proof (filter_length_mono
      (fun r' => same_key rj r' && ts_le (ingest_time rj) (ingest_time r'))
      (fun r' => same_key ri r' && ts_le (ingest_time ri) (ingest_time r')) l1) as A1.
    pose proof (filter_length_mono
      (fun r' => same_key rj r' && ts_le (ingest_time rj) (ingest_time r'))
      (fun r' => same_key ri r' && ts_lt (ingest_time ri) (ingest_time r')) m) as A2.
    pose proof (filter_length_mono
      (fun r' => same_key rj r' && ts_lt (ingest_time rj) (ingest_time r'))
      (fun r' => same_key ri r' && ts_lt (ingest_time ri) (ingest_time r')) l2') as A3.
    assert (B1 := A1 ltac:(intros x _ Hx; apply andb_true_iff in Hx;
      destruct Hx as [Hx1 Hx2]; rewrite <- Hsame, Hx1; cbn [andb];
      apply ts_lt_le;
      unfold ts_le in Hx2; apply negb_true_iff in Hx2;
      destruct (ts_lt (ingest_time ri) (ingest_time x)) eqn:Ex; [reflexivity |];
      exfalso;
      assert (Hle : ts_le (ingest_time x) (ingest_time ri) = true)
        by (unfold ts_le; rewrite Ex; reflexivity);
      pose proof (ts_le_lt_trans _ _ _ Hle Hlt) as Hc;
      rewrite Hc in Hx2; discriminate)).
    assert (B2 := A2 ltac:(intros x _ Hx; apply andb_true_iff in Hx;
      destruct Hx as [Hx1 Hx2]; rewrite <- Hsame, Hx1; cbn [andb];
      eapply ts_lt_le_trans; eassumption)).
    assert (B3 := A3 ltac:(intros x _ Hx; apply andb_true_iff in Hx;
      destruct Hx as [Hx1 Hx2]; rewrite <- Hsame, Hx1; cbn [andb];
      eapply ts_lt_trans; eassumption)).
    lia. }
  assert (Hbound : forall b r a,
            (1 <= row_number b r a <= count_key (NATBR r) (b ++ r :: a))%nat).
  { intros b r a. unfold row_number, count_key.
    rewrite filter_app, length_app. cbn [filter].
    unfold key_is at 2. rewrite cell_eqb_refl. cbn [List.length].
    pose proof (filter_length_mono
      (fun r' => same_key r r' && ts_le (ingest_time r) (ingest_time r'))
      (key_is (NATBR r)) b
      ltac:(intros x _ Hx; apply andb_true_iff in Hx; apply Hx)).
    pose proof (filter_length_mono
      (fun r' => same_key r r' && ts_lt (ingest_time r) (ingest_time r'))
      (key_is (NATBR r)) a
      ltac:(intros x _ Hx; apply andb_true_iff in Hx; apply Hx)).
    lia. }
  split; [exact Hfirst |]. split; [exact Hsecond |].
  split.
  { destruct (ts_lt (ingest_time ri) (ingest_time rj)) eqn:E.
    - specialize (Hsecond eq_refl). lia.
    - assert (Hle : ts_le (ingest_time rj) (ingest_time ri) = true)
        by (unfold ts_le; rewrite E; reflexivity).
      specialize (Hfirst Hle). lia. }
  rewrite Hsplit. split.
  - apply (Hbound l1 ri (m ++ rj :: l2')).
  - rewrite Hk. replace (l1 ++ ri :: m ++ rj :: l2') with ((l1 ++ ri :: m) ++ rj :: l2')
      by (rewrite <- app_assoc; reflexivity).
    apply Hbound.
Qed.

Lemma row_numbers_rank_each_partition_witness :
  (ts_le (ingest_time (product "1" "quill" "c1" "7" "3.5" clock_0706 "b.csv"))
         (ingest_time (product "1" "pen" "c1" "7" "1.5" clock_0705 "a.csv")) = true ->
   (2 < 1)%nat)
  /\ (ts_lt (ingest_time (product "1" "pen" "c1" "7" "1.5" clock_0705 "a.csv"))
            (ingest_time (product "1" "quill" "c1" "7" "3.5" clock_0706 "b.csv")) = true ->
      (1 < 2)%nat)
  /\ 2%nat <> 1%nat
  /\ (1 <= 2 <= count_key (Some "1"%string) (filter recent two_versions))%nat
  /\ (1 <= 1 <= count_key (Some "1"%string) (filter recent two_versions))%nat.
Proof.
  apply (row_numbers_rank_each_partition two_versions 0 2
           (product "1" "pen" "c1" "7" "1.5" clock_0705 "a.csv")
           (product "1" "quill" "c1" "7" "3.5" clock_0706 "b.csv") 2 1).
  - vm_compute. reflexivity.
  - vm_compute. reflexivity.
  - lia.
  - reflexivity.
Defined.

(** ** How a run ends *)

Lemma run_Success E env db db' :
  run E env db = (Success, db') ->
  exists entries typed t,
    listdir env = Some entries
    /\ astype (map data_of (selected (scan_bronze E (ingest (csv_files entries) []))))
       = Some typed
    /\ db' = {| bronze_produtos := Some (ingest (csv_files entries) []);
                silver_produtos := Some (map (stamp_row t) typed);
                gold_produtos_fat :=
                  Some (df_fato (scan_silver_fat E (map (stamp_row t) typed)));
                gold_produtos_dim :=
                  Some (df_dim (scan_silver_dim E (map (stamp_row t) typed))) |}.
Proof.
  unfold run, bronze_stage.
  destruct (listdir env) as [entries |]; cbn [and_then]; [| discriminate].
  destruct (silver_stage E (silver_now env) _) as [[|] dbs] eqn:Es;
    cbn [and_then]; [| discriminate].
  destruct (silver_stage_Success _ _ _ _ Es) as (bronze & typed & t & Hb & Ha & ->).
  cbn in Hb. injection Hb as <-.
  unfold gold_stage. cbn [silver_produtos set_silver].
  intros H. injection H as <-.
  exists entries, typed, t. split; [reflexivity |]. split; [exact Ha | reflexivity].
Qed.

(** A run whose clock reading is valid ends in one of three ways.  It
    succeeds, and then all four tables exist and no cast failed.  Or the
    listing of the landing directory raised: the run aborts with the raw
    table already dropped and recreated empty.  Or a cast failed on a
    selected row: the run aborts with the raw table loaded.  In both
    aborted runs the current-state, fact and dimension tables are those
    found at the start. *)
Theorem run_ends_in_one_of_three_ways
  (E : engine) (env : environment) (db : database) :
  valid_datetime (silver_now env) = true ->
  (fst (run E env db) = Success
   /\ show_tables (snd (run E env db))
      = [TABLE_NAME_BRONZE; TABLE_NAME_DIM; TABLE_NAME_FAT; TABLE_NAME_SILVER]
   /\ exists entries,
        listdir env = Some entries
        /\ forall p, In p (silver_query (scan_bronze E (ingest (csv_files entries) []))) ->
                     astype_row (drop_rename p) <> None)
  \/ (fst (run E env db) = Aborted
      /\ silver_produtos (snd (run E env db)) = silver_produtos db
      /\ gold_produtos_fat (snd (run E env db)) = gold_produtos_fat db
      /\ gold_produtos_dim (snd (run E env db)) = gold_produtos_dim db
      /\ ((listdir env = None /\ bronze_produtos (snd (run E env db)) = Some [])
          \/ exists entries p,
               listdir env = Some entries
               /\ bronze_produtos (snd (run E env db))
                  = Some (ingest (csv_files entries) [])
               /\ In p (silver_query (scan_bronze E (ingest (csv_files entries) [])))
               /\ astype_row (drop_rename p) = None)).
Proof.
  intros Hv. unfold run, bronze_stage.
  destruct (listdir env) as [entries |] eqn:Hl; cbn [and_then].
  - unfold silver_stage. cbn [bronze_produtos set_bronze].
    destruct (astype _) as [typed |] eqn:Ea.
    + left. rewrite insert_silver_valid by assumption. cbn [and_then].
      unfold gold_stage. cbn [silver_produtos set_silver fst snd].
      split; [reflexivity |]. split; [reflexivity |].
      exists entries. split; [reflexivity |].
      intros p Hp Hn.
      assert (Hnone : astype (map drop_rename
                 (silver_query (scan_bronze E (ingest (csv_files entries) [])))) = None).
      { apply traverse_None. exists (drop_rename p). split; [| assumption].
        apply in_map. assumption. }
      rewrite Ea in Hnone. discriminate.
    + right. cbn [and_then fst snd]. repeat split.
      right. apply traverse_None in Ea. destruct Ea as (x & Hx & Hn).
      apply in_map_iff in Hx. destruct Hx as (p & <- & Hp).
      exists entries, p. repeat split; assumption.
  - right. cbn [fst snd]. repeat split. left. split; reflexivity.
Qed.

Lemma run_ends_in_one_of_three_ways_witness :
  fst (run fifo_engine (landing [good_file; bad_key_file] clock_0910) empty_database)
  = Aborted
  /\ fst (run fifo_engine (landing [good_file; newer_file] clock_0910) empty_database)
     = Success
  /\ show_tables
       (snd (run fifo_engine (landing [good_file; newer_file] clock_0910) empty_database))
     = [TABLE_NAME_BRONZE; TABLE_NAME_DIM; TABLE_NAME_FAT; TABLE_NAME_SILVER].
Proof.
  split; [reflexivity |].
  destruct (run_ends_in_one_of_three_ways fifo_engine
              (landing [good_file; newer_file] clock_0910) empty_database eq_refl)
    as [(H1 & H2 & _) | (H1 & _)].
  - split; assumption.
  - vm_compute in H1. discriminate H1.
Defined.

(** ** The final statistics *)

(** After a successful run the four counts the script reads back (lines
    232-235) exist and decrease from layer to layer: the fact and the
    dimension table hold no more rows than the current-state table, which
    holds no more rows than the raw table; the raw count is the total the
    loader reported. *)
Theorem statistics_decrease_by_layer
  (E : engine) (env : environment) (db db' : database)
  (entries : list landing_file) :
  listdir env = Some entries ->
  run E env db = (Success, db') ->
  exists silver_count fact_count dim_count,
    statistics db'
    = Some (logged_total (ingest_log (csv_files entries)),
            silver_count, fact_count, dim_count)
    /\ (fact_count <= silver_count)%nat
    /\ (dim_count <= silver_count)%nat
    /\ (silver_count <= logged_total (ingest_log (csv_files entries)))%nat.
Proof.
  intros Hl Hrun.
  destruct (run_Success _ _ _ _ Hrun) as (entries' & typed & t & Hl' & Ha & ->).
  rewrite Hl in Hl'. injection Hl' as <-.
  set (bronze := ingest (csv_files entries) []) in *.
  set (silver := map (stamp_row t) typed).
  assert (Hb : List.length bronze = logged_total (ingest_log (csv_files entries))).
  { unfold bronze. rewrite ingest_concat. cbn [app].
    rewrite list_sum_length_concat. unfold logged_total, ingest_log.
    rewrite !map_map. f_equal. apply map_ext. intros f. cbn [snd].
    symmetry. apply processed_loaded. }
  exists (List.length silver), (List.length (df_fato (scan_silver_fat E silver))),
    (List.length (df_dim (scan_silver_dim E silver))).
  split; [cbn; rewrite Hb; reflexivity |].
  split.
  { unfold df_fato. etransitivity; [apply distinct_length |].
    rewrite length_map, (Permutation_length (scan_silver_fat_perm E silver)).
    reflexivity. }
  split.
  { unfold df_dim. etransitivity; [apply distinct_length |].
    rewrite length_map, (Permutation_length (scan_silver_dim_perm E silver)).
    reflexivity. }
  rewrite <- Hb. unfold silver. rewrite length_map.
  rewrite (traverse_length _ _ _ Ha), length_map.
  etransitivity; [apply selected_length |].
  etransitivity; [apply filter_length_le |].
  rewrite (Permutation_length (scan_bronze_perm E bronze)). reflexivity.
Qed.

Lemma statistics_decrease_by_layer_witness :
  exists silver_count fact_count dim_count,
    statistics (snd (run fifo_engine (landing [good_file; newer_file] clock_0910)
                         empty_database))
    = Some (logged_total (ingest_log (csv_files [good_file; newer_file])),
            silver_count, fact_count, dim_count)
    /\ (fact_count <= silver_count)%nat
    /\ (dim_count <= silver_count)%nat
    /\ (silver_count <= logged_total (ingest_log (csv_files [good_file; newer_file])))%nat.
Proof.
  apply (statistics_decrease_by_layer fifo_engine
           (landing [good_file; newer_file] clock_0910) empty_database _
           [good_file; newer_file]).
  - reflexivity.
  - vm_compute. reflexivity.
Defined.

(** ** The gold tables when ids are unique *)

Lemma distinct_no_equal_rows {A} (eqb : A -> A -> bool) (l : list A) :
  ForallOrdPairs (fun x y => eqb x y = false) l -> distinct eqb l = l.
Proof.
  induction 1 as [| a l Ha _ IH]; simpl; [reflexivity |].
  rewrite IH. f_equal. rewrite Forall_forall in Ha.
  clear IH. induction l as [| x l IHl]; simpl; [reflexivity |].
  rewrite (Ha x (or_introl eq_refl)). simpl. f_equal.
  apply IHl. intros y Hy. apply Ha. right. assumption.
Qed.

Lemma NoDup_key_no_equal_rows {A K} (eqb : A -> A -> bool) (key : A -> K)
  (l : list A) :
  (forall x y, eqb x y = true -> key x = key y) ->
  NoDup (map key l) -> ForallOrdPairs (fun x y => eqb x y = false) l.
Proof.
  intros Hkey. induction l as [| a l IH]; simpl; intros Hnd; constructor.
  - apply NoDup_cons_iff in Hnd. destruct Hnd as [Hnot _].
    apply Forall_forall. intros x Hx.
    destruct (eqb a x) eqn:E; [| reflexivity].
    exfalso. apply Hnot. rewrite (Hkey a x E). apply in_map. assumption.
  - apply IH. apply NoDup_cons_iff in Hnd. apply Hnd.
Qed.

(** When no two rows of the current-state table share an id, [id] is a
    key of both gold tables, as their DDL comments say: each table holds
    exactly the projections of the current-state rows, one row for each,
    and no id twice. *)
Theorem unique_ids_are_primary_keys
  (E : engine) (db : database) (silver : list silver_row) :
  silver_produtos db = Some silver ->
  NoDup (map id silver) ->
  exists fat dim,
    gold_stage E db = (Success, set_dim (set_fat db (Some fat)) (Some dim))
    /\ Permutation fat (map select_fat silver)
    /\ Permutation dim (map select_dim silver)
    /\ NoDup (map fat_id fat) /\ NoDup (map dim_id dim)
    /\ List.length fat = List.length silver
    /\ List.length dim = List.length silver.
Proof.
  intros Hs Hnd.
  pose proof (scan_silver_fat_perm E silver) as Pf.
  pose proof (scan_silver_dim_perm E silver) as Pd.
  assert (Hf : df_fato (scan_silver_fat E silver)
               = map select_fat (scan_silver_fat E silver)).
  { unfold df_fato. apply distinct_no_equal_rows.
    apply (NoDup_key_no_equal_rows fat_eqb fat_id); [apply fat_eqb_id |].
    rewrite map_map. cbn [select_fat fat_id].
    apply (Permutation_NoDup (Permutation_map id (Permutation_sym Pf))). assumption. }
  assert (Hd : df_dim (scan_silver_dim E silver)
               = map select_dim (scan_silver_dim E silver)).
  { unfold df_dim. apply distinct_no_equal_rows.
    apply (NoDup_key_no_equal_rows dim_eqb dim_id).
    - intros x y Hxy. apply dim_eqb_eq in Hxy. congruence.
    - rewrite map_map. cbn [select_dim dim_id].
      apply (Permutation_NoDup (Permutation_map id (Permutation_sym Pd))). assumption. }
  exists (df_fato (scan_silver_fat E silver)), (df_dim (scan_silver_dim E silver)).
  split; [unfold gold_stage; rewrite Hs; reflexivity |].
  rewrite Hf, Hd.
  split; [apply Permutation_map; assumption |].
  split; [apply Permutation_map; assumption |].
  split.
  { rewrite map_map. cbn [select_fat fat_id].
    apply (Permutation_NoDup (Permutation_map id (Permutation_sym Pf))). assumption. }
  split.
  { rewrite map_map. cbn [select_dim dim_id].
    apply (Permutation_NoDup (Permutation_map id (Permutation_sym Pd))). assumption. }
  rewrite !length_map, (Permutation_length Pf), (Permutation_length Pd). auto.
Qed.

Lemma unique_ids_are_primary_keys_witness :
  exists fat dim,
    gold_stage fifo_engine
      (snd (silver_stage fifo_engine clock_0910 (with_bronze two_versions)))
    = (Success,
       set_dim (set_fat
         (snd (silver_stage fifo_engine clock_0910 (with_bronze two_versions)))
         (Some fat)) (Some dim))
    /\ List.length fat = 2%nat /\ List.length dim = 2%nat.
Proof.
  destruct (unique_ids_are_primary_keys fifo_engine
              (snd (silver_stage fifo_engine clock_0910 (with_bronze two_versions)))
              (map (stamp_row (Some (timestamp_of_datetime clock_0910)))
                 [ {| typed_id := 2; typed_prod_name := Some "ink"%string;
                      typed_id_category := Some "c2"%string; typed_supplier := 8;
                      typed_price := Some (S754_finite false 8388608 (-21)) |};
                   {| typed_id := 1; typed_prod_name := Some "quill"%string;
                      typed_id_category := Some "c1"%string; typed_supplier := 7;
                      typed_price := Some (S754_finite false 14680064 (-22)) |} ]))
    as (fat & dim & Hrun & _ & _ & _ & _ & Hf & Hd).
  - vm_compute. reflexivity.
  - cbn. repeat constructor; simpl; intuition discriminate.
  - exists fat, dim. split; [exact Hrun |]. split; assumption.
Defined.

(** ** The samples printed at the end *)

(** [exibir_amostra] prints at most five rows, all of them rows of the
    table, and the whole table when it holds no more than five; the count
    it prints is the size of the table, not of the sample.  On a table
    that does not exist it raises. *)
Theorem exibir_amostra_sample {A} (scan : list A -> list A) (table : list A) :
  (forall t, Permutation (scan t) t) ->
  exibir_amostra scan (@None (list A)) = None
  /\ exists sample,
       exibir_amostra scan (Some table) = Some (sample, List.length table)
       /\ List.length sample = Nat.min 5 (List.length table)
       /\ incl sample table
       /\ ((List.length table <= 5)%nat -> Permutation sample table).
Proof.
  intros Hperm. split; [reflexivity |].
  exists (firstn 5 (scan table)). split; [reflexivity |].
  pose proof (Hperm table) as HP.
  split; [rewrite length_firstn, (Permutation_length HP); reflexivity |].
  split.
  { intros x Hx. apply (Permutation_in x HP).
    rewrite <- (firstn_skipn 5 (scan table)). apply in_or_app. left. assumption. }
  intros Hle. rewrite firstn_all2; [assumption |].
  rewrite (Permutation_length HP). assumption.
Qed.

Lemma exibir_amostra_sample_witness :
  exibir_amostra (@rev raw_row) (@None (list raw_row)) = None
  /\ exists sample,
       exibir_amostra (@rev raw_row) (Some two_versions)
       = Some (sample, List.length two_versions)
       /\ List.length sample = Nat.min 5 (List.length two_versions)
       /\ incl sample two_versions
       /\ ((List.length two_versions <= 5)%nat -> Permutation sample two_versions).
Proof.
  apply (exibir_amostra_sample (@rev raw_row) two_versions).
  intros t. apply Permutation_sym, Permutation_rev.
Defined.

(** ** What the typed columns hold *)

Lemma astype_int64_range c v :
  astype_int64 c = Some v -> int64_min <= v <= int64_max.
Proof.
  unfold astype_int64. destruct c as [text |]; [| discriminate].
  destruct (python_int text) as [n |]; [| discriminate].
  destruct ((int64_min <=? n) && (n <=? int64_max)) eqn:E; [| discriminate].
  intros H. injection H as <-.
  apply andb_true_iff in E. rewrite !Z.leb_le in E. exact E.
Qed.

Lemma astype_float32_not_nan c x :
  astype_float32 c = Some (Some x) -> x <> S754_nan.
Proof.
  unfold astype_float32. destruct c as [text |]; [| discriminate].
  destruct (python_float text) as [d |]; [| discriminate].
  destruct (double_to_single d) eqn:E; intros H; try discriminate;
    injection H as <-; discriminate.
Qed.

(** Every row the silver stage writes fits the table's column types: its
    id and its supplier are 64-bit integers, its price is NULL or a value
    that is not a NaN, and its name and category are the texts of the raw
    row it comes from, unchanged. *)
Theorem current_state_rows_fit_their_columns
  (E : engine) (clock : datetime) (db db' : database) (table : list silver_row)
  (row : silver_row) :
  silver_stage E clock db = (Success, db') ->
  silver_produtos db' = Some table ->
  In row table ->
  int64_min <= id row <= int64_max
  /\ int64_min <= supplier row <= int64_max
  /\ price row <> Some S754_nan
  /\ exists bronze r,
       bronze_produtos db = Some bronze /\ In r bronze /\ recent r = true
       /\ prod_name row = MAKTX r /\ id_category row = WERKS r
       /\ astype_int64 (NATBR r) = Some (id row)
       /\ astype_int64 (MAINS r) = Some (supplier row)
       /\ astype_float32 (LABST r) = Some (price row).
Proof.
  intros Hs Ht Hrow.
  destruct (silver_stage_Success _ _ _ _ Hs) as (bronze & typed & t & Hb & Ha & ->).
  cbn in Ht. injection Ht as <-.
  apply in_map_iff in Hrow. destruct Hrow as (ty & <- & Hty).
  destruct (traverse_In_inv _ _ _ _ Ha Hty) as (x & Hx & Hin).
  apply in_map_iff in Hin. destruct Hin as (r & <- & Hr).
  destruct (selected_max _ _ Hr) as [Hrec _].
  apply filter_In in Hrec. destruct Hrec as [Hscan Hrec].
  unfold astype_row, data_of, drop_rename in Hx. cbn in Hx.
  destruct (astype_int64 (NATBR r)) as [i |] eqn:Ei; cbn in Hx; [| discriminate].
  destruct (astype_int64 (MAINS r)) as [s |] eqn:Es; cbn in Hx; [| discriminate].
  destruct (astype_float32 (LABST r)) as [p |] eqn:Ep; cbn in Hx; [| discriminate].
  injection Hx as <-. cbn.
  split; [apply (astype_int64_range _ _ Ei) |].
  split; [apply (astype_int64_range _ _ Es) |].
  split.
  { destruct p as [x |]; [| discriminate].
    intros H. injection H as ->. apply (astype_float32_not_nan _ _ Ep). reflexivity. }
  exists bronze, r. split; [assumption |].
  split; [apply (Permutation_in r (scan_bronze_perm E bronze)); assumption |].
  repeat split; assumption.
Qed.

Lemma current_state_rows_fit_their_columns_witness :
  int64_min <= 1 <= int64_max
  /\ int64_min <= 7 <= int64_max
  /\ Some (S754_finite false 14680064 (-22)) <> Some S754_nan
  /\ exists bronze r,
       bronze_produtos (with_bronze two_versions) = Some bronze /\ In r bronze
       /\ recent r = true
       /\ Some "quill"%string = MAKTX r /\ Some "c1"%string = WERKS r
       /\ astype_int64 (NATBR r) = Some 1
       /\ astype_int64 (MAINS r) = Some 7
       /\ astype_float32 (LABST r) = Some (Some (S754_finite false 14680064 (-22))).
Proof.
  apply (current_state_rows_fit_their_columns fifo_engine clock_0910
           (with_bronze two_versions)
           (snd (silver_stage fifo_engine clock_0910 (with_bronze two_versions)))
           (map (stamp_row (Some (timestamp_of_datetime clock_0910)))
              [ {| typed_id := 2; typed_prod_name := Some "ink"%string;
                   typed_id_category := Some "c2"%string; typed_supplier := 8;
                   typed_price := Some (S754_finite false 8388608 (-21)) |};
                {| typed_id := 1; typed_prod_name := Some "quill"%string;
                   typed_id_category := Some "c1"%string; typed_supplier := 7;
                   typed_price := Some (S754_finite false 14680064 (-22)) |} ])
           (stamp_row (Some (timestamp_of_datetime clock_0910))
              {| typed_id := 1; typed_prod_name := Some "quill"%string;
                 typed_id_category := Some "c1"%string; typed_supplier := 7;
                 typed_price := Some (S754_finite false 14680064 (-22)) |})).
  - vm_compute. reflexivity.
  - vm_compute. reflexivity.
  - right. left. reflexivity.
Defined.

(** ** A file of five columns *)


